(** * Neural Sales web app: transcript retrieval and insight generation

    A shallow embedding of [app.py]: the three operations
    [get_fireflies_transcripts], [get_transcript_text_by_id] and
    [generate_sales_insights], and the handlers of [main] that call them.

    Python values coming out of [resp.json()] are an inductive type, Python
    exceptions are values of a result type, and the effects of the program
    (HTTP calls, calls of the generative-AI client, Streamlit widgets and
    [st.session_state]) are threaded through an explicit state. *)

From Stdlib Require Import String Ascii List ZArith Bool Lia.
From Stdlib Require Import Floats.SpecFloat.
Import ListNotations.
Open Scope string_scope.
#[local] Set Warnings "-register-all".

(** ** Strings *)

Module PyStr.

(** The line feed, and the double quote (which a literal cannot hold). *)
Definition nl : string := String (ascii_of_nat 10) EmptyString.
Definition dquote : string := String (ascii_of_nat 34) EmptyString.

(** The lines of a triple-quoted literal, joined as they are in the source. *)
Definition lines (l : list string) : string := String.concat nl l.

(** Truth value of a [str]: the empty string is false. *)
Definition truthy (s : string) : bool :=
  match s with EmptyString => false | String _ _ => true end.

(** A Python [str] is kept as the bytes of its UTF-8 encoding.  The code
    points [str.strip()] removes are U+0009..U+000D, U+001C..U+0020, U+0085,
    U+00A0, U+1680, U+2000..U+200A, U+2028, U+2029, U+202F, U+205F and
    U+3000; they are recognised below by their encodings of one, two and
    three bytes. *)
Definition space1 (a : ascii) : bool :=
  let n := nat_of_ascii a in
  ((9 <=? n) && (n <=? 13) || (28 <=? n) && (n <=? 32))%nat.

Definition space2 (a b : ascii) : bool :=
  let n := nat_of_ascii a in
  let m := nat_of_ascii b in
  ((n =? 194) && ((m =? 133) || (m =? 160)))%nat.

Definition space3 (a b c : ascii) : bool :=
  let n := nat_of_ascii a in
  let m := nat_of_ascii b in
  let k := nat_of_ascii c in
  ((n =? 225) && (m =? 154) && (k =? 128)
   || (n =? 226) && (m =? 128)
      && ((128 <=? k) && (k <=? 138) || (k =? 168) || (k =? 169) || (k =? 175))
   || (n =? 226) && (m =? 129) && (k =? 159)
   || (n =? 227) && (m =? 128) && (k =? 128))%nat.

(** Dropping white space at the front of a byte sequence.  With
    [backwards] the sequence is a reversed string, so the bytes of one code
    point come last byte first. *)
Fixpoint drop_space (backwards : bool) (s : list ascii) : list ascii :=
  match s with
  | [] => []
  | a :: t =>
      if space1 a then drop_space backwards t
      else
        match t with
        | [] => s
        | b :: u =>
            if (if backwards then space2 b a else space2 a b)
            then drop_space backwards u
            else
              match u with
              | [] => s
              | c :: v =>
                  if (if backwards then space3 c b a else space3 a b c)
                  then drop_space backwards v
                  else s
              end
        end
  end.

Definition lstrip (s : list ascii) : list ascii := drop_space false s.
Definition rstrip (s : list ascii) : list ascii :=
  rev (drop_space true (rev s)).

(** [s.strip()] *)
Definition strip (s : string) : string :=
  string_of_list_ascii (rstrip (lstrip (list_ascii_of_string s))).

(** [needle in s] on two strings: [needle] occurs in [s]. *)
Definition contains (needle s : string) : bool :=
  match String.index 0 needle s with Some _ => true | None => false end.

End PyStr.

(** ** Exceptions *)

(** The classes of [Exception] the program distinguishes or can meet.
    [RequestException] stands for [requests.RequestException] and all of its
    subclasses ([ConnectionError], [Timeout], [HTTPError], the library's
    [JSONDecodeError], ...); [OtherException] is any other subclass of
    [Exception]. *)
Inductive exn_class : Type :=
| RequestException
| AttributeError
| KeyError
| TypeError
| ValueError
| OtherException (name : string).

(** An exception: its class and what [str(e)] gives.  The texts given below
    to the interpreter's own errors follow CPython's wording; no statement
    depends on them. *)
Record exn : Type := Exn { exn_class_of : exn_class; exn_str : string }.

Definition is_RequestException (e : exn) : bool :=
  match exn_class_of e with RequestException => true | _ => false end.

Definition is_AttributeError (e : exn) : bool :=
  match exn_class_of e with AttributeError => true | _ => false end.

(** [except Exception] catches every exception of the model. *)
Definition is_Exception (e : exn) : bool := true.

(** The outcome of evaluating an expression: a value or a raised exception. *)
Inductive result (A : Type) : Type :=
| Returned (a : A)
| Raised (e : exn).
Arguments Returned {A} a.
Arguments Raised {A} e.

(** ** Python values

    What [json.loads] builds: [None], [bool], [int], [float], [str], [list]
    and [dict] with string keys.  A [dict] is the list of its items in
    insertion order; the parser never leaves a key twice. *)
Inductive pyval : Type :=
| PNone
| PBool (b : bool)
| PInt (n : Z)
| PFloat (x : spec_float)
| PStr (s : string)
| PList (l : list pyval)
| PDict (items : list (string * pyval)).

Module Py.

Fixpoint lookup (k : string) (items : list (string * pyval)) : option pyval :=
  match items with
  | [] => None
  | (k', v) :: rest => if String.eqb k k' then Some v else lookup k rest
  end.

Definition type_name (v : pyval) : string :=
  match v with
  | PNone => "NoneType"
  | PBool _ => "bool"
  | PInt _ => "int"
  | PFloat _ => "float"
  | PStr _ => "str"
  | PList _ => "list"
  | PDict _ => "dict"
  end.

(** [x == PStr s] for a value [x]: only an equal string is equal to a
    string. *)
Definition eq_str (s : string) (x : pyval) : bool :=
  match x with PStr t => String.eqb s t | _ => false end.

(** [k in v] for a string [k]: a key of a dict, an element of a list, a
    substring of a string; any other value is not a container. *)
Definition contains (k : string) (v : pyval) : result bool :=
  match v with
  | PDict items =>
      Returned (match lookup k items with Some _ => true | None => false end)
  | PList l => Returned (existsb (eq_str k) l)
  | PStr s => Returned (PyStr.contains k s)
  | _ =>
      Raised (Exn TypeError
                ("argument of type '" ++ type_name v ++ "' is not iterable"))
  end.

(** [v[k]] for a string [k]. *)
Definition getitem (v : pyval) (k : string) : result pyval :=
  match v with
  | PDict items =>
      match lookup k items with
      | Some x => Returned x
      | None => Raised (Exn KeyError ("'" ++ k ++ "'"))
      end
  | PList _ =>
      Raised (Exn TypeError "list indices must be integers or slices, not str")
  | PStr _ =>
      Raised (Exn TypeError "string indices must be integers, not 'str'")
  | _ =>
      Raised (Exn TypeError
                ("'" ++ type_name v ++ "' object is not subscriptable"))
  end.

(** [v.get(k, default)]: only a dict has the method. *)
Definition get (v : pyval) (k : string) (default : pyval) : result pyval :=
  match v with
  | PDict items =>
      Returned (match lookup k items with Some x => x | None => default end)
  | _ =>
      Raised (Exn AttributeError
                ("'" ++ type_name v ++ "' object has no attribute 'get'"))
  end.

(** The elements [for x in v] runs over: the elements of a list, the keys
    of a dict, the characters of a string (here byte by byte: the program
    only ever subscripts them, which fails on any string). *)
Definition iter (v : pyval) : result (list pyval) :=
  match v with
  | PList l => Returned l
  | PDict items => Returned (map (fun kv => PStr (fst kv)) items)
  | PStr s =>
      Returned (map (fun c => PStr (String c EmptyString))
                    (list_ascii_of_string s))
  | _ =>
      Raised (Exn TypeError
                ("'" ++ type_name v ++ "' object is not iterable"))
  end.

(** Truth value of a Python value, as [if v:] and [not v] take it. *)
Definition truthy (v : pyval) : bool :=
  match v with
  | PNone => false
  | PBool b => b
  | PInt n => negb (Z.eqb n 0)
  | PFloat x => match x with S754_zero _ => false | _ => true end
  | PStr s => PyStr.truthy s
  | PList l => match l with [] => false | _ => true end
  | PDict items => match items with [] => false | _ => true end
  end.

(** The strings of a list of values, for [sep.join]: an element that is
    not a [str] is a [TypeError]. *)
Fixpoint strings (l : list pyval) : result (list string) :=
  match l with
  | [] => Returned []
  | PStr s :: rest =>
      match strings rest with
      | Returned ss => Returned (s :: ss)
      | Raised e => Raised e
      end
  | x :: _ =>
      Raised (Exn TypeError
                ("sequence item: expected str instance, "
                   ++ type_name x ++ " found"))
  end.

(** [sep.join(l)] *)
Definition join (sep : string) (l : list pyval) : result string :=
  match strings l with
  | Returned ss => Returned (String.concat sep ss)
  | Raised e => Raised e
  end.

End Py.

(** ** The outside world *)

(** A call of [requests.post(url, json=..., headers=...)]. *)
Record http_request : Type := HttpRequest {
  req_url : string;
  req_json : pyval;
  req_headers : list (string * string)
}.

(** The body of an HTTP response, as [resp.json()] finds it. *)
Inductive http_body : Type :=
| Json (v : pyval)
| NotJson (decode_error : string).

(** An HTTP response: its status, the text of the [HTTPError] that
    [raise_for_status] raises for it, and its body. *)
Record http_response : Type := HttpResponse {
  status_code : Z;
  http_error_text : string;
  body : http_body
}.

(** What a call of [requests.post] does: it raises one of the library's
    exceptions (no connection, time out, bad URL, ...) or returns a
    response. *)
Inductive http_outcome : Type :=
| PostRaises (error_text : string)
| PostReturns (resp : http_response).

(** The transcription service and the network in front of it: the outcome
    of a request, given the requests made before it (latest first). *)
Definition backend : Type := list http_request -> http_request -> http_outcome.

(** [resp.raise_for_status()] *)
Definition raise_for_status (resp : http_response) : result unit :=
  if ((400 <=? status_code resp) && (status_code resp <? 600))%Z
  then Raised (Exn RequestException (http_error_text resp))
  else Returned tt.

(** [resp.json()]; since requests 2.27 a body that does not parse raises
    [requests.exceptions.JSONDecodeError], a [RequestException]. *)
Definition json (resp : http_response) : result pyval :=
  match body resp with
  | Json v => Returned v
  | NotJson msg => Raised (Exn RequestException msg)
  end.

(** The text handed to a Streamlit widget: a literal (an f-string whose
    fields are strings is one), or [template.format(arg)] with a Python
    value as argument, rendered by Python's [str]. *)
Inductive message : Type :=
| Plain (text : string)
| Format (template : string) (arg : pyval).

(** The buttons of the page; [st.button] is true for the one the user
    clicked. *)
Inductive button : Type :=
| LoadButton
| InsightsButton (transcript_id : pyval).

(** The Streamlit calls of the program that show something. *)
Inductive st_call : Type :=
| st_button (b : button)
| st_set_page_config (page_title layout : string)
| st_title (text : string)
| st_write (m : message)
| st_subheader (text : string)
| st_columns (spec : list Z)
| st_info (text : string)
| st_markdown (text : string)
| st_success (text : string)
| st_warning (text : string)
| st_error (m : message).

(** ** The generative-AI client *)

(** [response.prompt_feedback.block_reason]: an integer enumeration, false
    when zero, with the text an f-string shows for it. *)
Record BlockReason : Type := {
  reason_value : Z;
  reason_str : string
}.

Record PromptFeedback : Type := {
  block_reason : BlockReason
}.

(** Reading an attribute may raise: [AttributeError] when the object has
    none of that name, or what a property raises ([response.text] raises
    [ValueError] when the candidate holds no text part). *)
Definition attribute (A : Type) : Type := result A.

Record Part : Type := {
  part_text : attribute string
}.

Record Content : Type := {
  parts : attribute (list Part)
}.

Record Candidate : Type := {
  content : attribute Content
}.

(** The response of [generate_content].  [prompt_feedback] is [None] for a
    value that is false ([None], or a feedback message with no field set). *)
Record GenerateContentResponse : Type := {
  prompt_feedback : option PromptFeedback;
  candidates : list Candidate;
  text : attribute string
}.

(** The client library, by what each of the program's calls into it does. *)
Record genai : Type := {
  configure : string -> result unit;
  GenerativeModel : string -> result unit;
  GenerationConfig : spec_float -> result unit;
  generate_content : string -> string -> spec_float
                     -> result GenerateContentResponse
}.

(** The calls made into the client, as the program makes them. *)
Inductive genai_call : Type :=
| call_configure (api_key : string)
| call_GenerativeModel (model_id : string)
| call_GenerationConfig (temperature : spec_float)
| call_generate_content (model_id prompt : string) (temperature : spec_float).

(** ** State and control *)

(** What the program changes: [st.session_state], the page (widget calls,
    latest first), and the calls it has made to the network and to the
    generative-AI client (latest first). *)
Record world : Type := World {
  session_state : list (string * pyval);
  page : list st_call;
  http_calls : list http_request;
  genai_calls : list genai_call
}.

(** A computation: from a world to an outcome and the world it leaves. *)
Definition M (A : Type) : Type := world -> result A * world.

(** The world with one more widget on the page, one more HTTP request
    made, one more call into the generative-AI client. *)
Definition shown (c : st_call) (w : world) : world :=
  World (session_state w) (c :: page w) (http_calls w) (genai_calls w).

Definition requested (req : http_request) (w : world) : world :=
  World (session_state w) (page w) (req :: http_calls w) (genai_calls w).

Definition called (c : genai_call) (w : world) : world :=
  World (session_state w) (page w) (http_calls w) (c :: genai_calls w).

Definition ret {A : Type} (a : A) : M A := fun w => (Returned a, w).

Definition bind {A B : Type} (m : M A) (k : A -> M B) : M B :=
  fun w =>
    match m w with
    | (Returned a, w') => k a w'
    | (Raised e, w') => (Raised e, w')
    end.

Definition lift {A : Type} (r : result A) : M A := fun w => (r, w).

(** [try: body except C as e: handler e], for the class test [catches]. *)
Definition try_except {A : Type} (body : M A) (catches : exn -> bool)
    (handler : exn -> M A) : M A :=
  fun w =>
    match body w with
    | (Returned a, w') => (Returned a, w')
    | (Raised e, w') => if catches e then handler e w' else (Raised e, w')
    end.

Declare Scope py_scope.
Delimit Scope py_scope with py.
Notation "x <- m ;; k" := (bind m (fun x => k))
  (at level 61, m at next level, right associativity) : py_scope.
Notation "m ;; k" := (bind m (fun _ => k))
  (at level 61, right associativity) : py_scope.
Open Scope py_scope.

(** A Streamlit call that shows something. *)
Definition show (c : st_call) : M unit :=
  fun w => (Returned tt, shown c w).

(** [st.session_state[k] = v] *)
Fixpoint assign (k : string) (v : pyval) (items : list (string * pyval))
  : list (string * pyval) :=
  match items with
  | [] => [(k, v)]
  | (k', v') :: rest =>
      if String.eqb k k' then (k, v) :: rest else (k', v') :: assign k v rest
  end.

Definition session_set (k : string) (v : pyval) : M unit :=
  fun w => (Returned tt,
            World (assign k v (session_state w)) (page w) (http_calls w)
                  (genai_calls w)).

(** [k in st.session_state] *)
Definition session_has (k : string) : M bool :=
  fun w => (Returned (match Py.lookup k (session_state w) with
                      | Some _ => true
                      | None => false
                      end), w).

(** [st.session_state[k]] *)
Definition session_get (k : string) : M pyval :=
  fun w => (match Py.lookup k (session_state w) with
            | Some v => Returned v
            | None => Raised (Exn KeyError ("'" ++ k ++ "'"))
            end, w).

(** Sequencing on outcomes alone, for expressions that touch no state. *)
Definition and_then {A B : Type} (r : result A) (k : A -> result B) : result B :=
  match r with
  | Returned a => k a
  | Raised e => Raised e
  end.

(** A list comprehension [[f x for x in l]]: it stops at the first element
    on which [f] raises. *)
Fixpoint comprehension {A B : Type} (f : A -> result B) (l : list A)
  : result (list B) :=
  match l with
  | [] => Returned []
  | x :: rest =>
      and_then (f x) (fun y =>
      and_then (comprehension f rest) (fun ys => Returned (y :: ys)))
  end.

(** A [for] loop whose body is a computation. *)
Fixpoint for_each {A : Type} (l : list A) (body : A -> M unit) : M unit :=
  match l with
  | [] => ret tt
  | x :: rest => body x ;; for_each rest body
  end.

(** ** The program *)

(** Model settings (lines 21-22); [0.7] is the binary64 number nearest to
    seven tenths. *)
Definition MODEL_ID : string := "gemini-2.0-flash".
Definition TEMPERATURE : spec_float := S754_finite false 6305039478318694 (-53).

(** The two GraphQL queries (lines 37-44 and 78-86). *)
Definition transcripts_query : string :=
  PyStr.lines
    [""; "    query {"; "      transcripts {"; "        id";
     "        title"; "      }"; "    }"; "    "].

Definition transcript_query : string :=
  PyStr.lines
    [""; "    query GetTranscript($id: String!) {";
     "      transcript(id: $id) {"; "        sentences {";
     "          text"; "        }"; "      }"; "    }"; "    "].

Section App.

(** The three settings read from the environment when the module is
    loaded (lines 16-18; [os.getenv] defaults each to the empty string). *)
Variable FIRELIES_API_KEY : string.
Variable FIRELIES_GRAPHQL_ENDPOINT : string.
Variable GOOGLE_API_KEY : string.

(** The network, the generative-AI client, and the user's clicks. *)
Variable net : backend.
Variable ai : genai.
Variable clicked : button -> bool.

(** [requests.post(url, json=payload, headers=headers)] *)
Definition requests_post (url : string) (payload : pyval)
    (headers : list (string * string)) : M http_response :=
  fun w =>
    let req := HttpRequest url payload headers in
    match net (http_calls w) req with
    | PostRaises msg => (Raised (Exn RequestException msg), requested req w)
    | PostReturns resp => (Returned resp, requested req w)
    end.

(** A call into the generative-AI client. *)
Definition client {A : Type} (c : genai_call) (r : result A) : M A :=
  fun w => (r, called c w).

(** [st.button(...)] *)
Definition button_clicked (b : button) : M bool :=
  show (st_button b) ;; ret (clicked b).

Definition headers : list (string * string) :=
  [("Content-Type", "application/json");
   ("Authorization", "Bearer " ++ FIRELIES_API_KEY)].

(** Lines 27-70. *)
Definition get_fireflies_transcripts : M pyval :=
  if negb (PyStr.truthy FIRELIES_API_KEY)
     || negb (PyStr.truthy FIRELIES_GRAPHQL_ENDPOINT)
  then
    show (st_error (Plain "Faltam configurações de acesso à API Fireflies.")) ;;
    ret (PList [])
  else
    let query := transcripts_query in
    try_except
      (resp <- requests_post FIRELIES_GRAPHQL_ENDPOINT
                 (PDict [("query", PStr query)]) headers ;;
       lift (raise_for_status resp) ;;
       data <- lift (json resp) ;;
       has_errors <- lift (Py.contains "errors" data) ;;
       if has_errors then
         errors <- lift (Py.getitem data "errors") ;;
         show (st_error
                 (Format "Erro(s) retornado(s) pelo GraphQL: {}" errors)) ;;
         ret (PList [])
       else
         d <- lift (Py.get data "data" (PDict [])) ;;
         transcripts <- lift (Py.get d "transcripts" (PList [])) ;;
         ret transcripts)
      is_RequestException
      (fun e =>
         show (st_error
                 (Plain ("Falha na requisição ao Fireflies: " ++ exn_str e))) ;;
         ret (PList [])).

(** Lines 73-114. *)
Definition get_transcript_text_by_id (transcript_id : pyval) : M string :=
  let query := transcript_query in
  let variables := PDict [("id", transcript_id)] in
  try_except
    (resp <- requests_post FIRELIES_GRAPHQL_ENDPOINT
               (PDict [("query", PStr query); ("variables", variables)])
               headers ;;
     lift (raise_for_status resp) ;;
     data <- lift (json resp) ;;
     has_errors <- lift (Py.contains "errors" data) ;;
     if has_errors then
       errors <- lift (Py.getitem data "errors") ;;
       show (st_error
               (Format "Erro(s) retornado(s) pelo GraphQL: {}" errors)) ;;
       ret ""
     else
       d <- lift (Py.get data "data" (PDict [])) ;;
       transcript <- lift (Py.get d "transcript" (PDict [])) ;;
       sentences <- lift (Py.get transcript "sentences" (PList [])) ;;
       each <- lift (Py.iter sentences) ;;
       texts <- lift (comprehension (fun s => Py.getitem s "text") each) ;;
       text <- lift (Py.join PyStr.nl texts) ;;
       ret text)
    is_RequestException
    (fun e =>
       show (st_error
               (Plain ("Falha na requisição ao Fireflies: " ++ exn_str e))) ;;
       ret "").

(** The prompt of lines 129-148 around the transcript. *)
Definition prompt_of (transcript_text : string) : string :=
  let q3 := PyStr.dquote ++ PyStr.dquote ++ PyStr.dquote in
  PyStr.lines
    [""; "Você é um especialista em análise de vendas com vasta experiência.";
     "Sua tarefa é analisar a seguinte transcrição de uma interação de vendas:";
     ""; q3; transcript_text; q3; "";
     "Com base na transcrição, liste **INSIGHTS ACIONÁVEIS** de vendas. Organize sua resposta nas seguintes categorias:";
     ""; "- **Oportunidades de Venda**"; "- **Necessidades Explícitas**";
     "- **Necessidades Implícitas**"; "- **Objeções**";
     "- **Upsell/Cross-sell**"; "- **Estratégias Comerciais**";
     "- **Sentimento Geral**"; ""; "Responda em formato markdown."; ""].

(** [hasattr(obj, name)] on the outcome of reading the attribute: only
    [AttributeError] means the attribute is not there. *)
Definition hasattr {A : Type} (a : attribute A) : result bool :=
  match a with
  | Returned _ => Returned true
  | Raised e => if is_AttributeError e then Returned false else Raised e
  end.

(** [x and y] where [x] is a bool and [y] may raise. *)
Definition and_also (x : bool) (y : result bool) : result bool :=
  if x then y else Returned false.

(** [response.prompt_feedback and response.prompt_feedback.block_reason],
    as a condition: the reason when it counts as true. *)
Definition blocked (response : GenerateContentResponse)
  : option BlockReason :=
  match prompt_feedback response with
  | None => None
  | Some feedback =>
      if Z.eqb (reason_value (block_reason feedback)) 0 then None
      else Some (block_reason feedback)
  end.

(** Lines 157-176: from the response to the returned string. *)
Definition extract_insights (response : GenerateContentResponse)
  : result string :=
  match blocked response with
  | Some reason =>
      Returned ("**Bloqueado pelo modelo**. Razão: " ++ reason_str reason)
  | None =>
      match candidates response with
      | [] => Returned "Nenhum candidato de resposta retornado."
      | candidate :: _ =>
          and_then (and_then (hasattr (text response)) (fun h =>
                    and_also h
                      (and_then (text response) (fun t =>
                         Returned (PyStr.truthy (PyStr.strip t))))))
            (fun primary =>
          if primary then
            and_then (text response) (fun t => Returned (PyStr.strip t))
          else
            and_then (and_then (hasattr (content candidate)) (fun h1 =>
                      and_also h1
                      (and_then (content candidate) (fun c =>
                       and_then (hasattr (parts c)) (fun h2 =>
                       and_also h2
                       (and_then (parts c) (fun ps =>
                          Returned (match ps with [] => false | _ => true end))))))))
              (fun fallback =>
            if fallback then
              and_then (content candidate) (fun c =>
              and_then (parts c) (fun ps =>
              match ps with
              | p :: _ =>
                  and_then (part_text p) (fun t => Returned (PyStr.strip t))
              | [] => Raised (Exn (OtherException "IndexError")
                                  "list index out of range")
              end))
            else Returned "Não foi possível extrair insights do modelo."))
      end
  end.

(** Lines 117-179. *)
Definition generate_sales_insights (transcript_text : string) : M string :=
  if negb (PyStr.truthy GOOGLE_API_KEY)
  then ret "Chave de API do Google não configurada."
  else
    client (call_configure GOOGLE_API_KEY) (configure ai GOOGLE_API_KEY) ;;
    let prompt := prompt_of transcript_text in
    try_except
      (client (call_GenerativeModel MODEL_ID) (GenerativeModel ai MODEL_ID) ;;
       client (call_GenerationConfig TEMPERATURE)
              (GenerationConfig ai TEMPERATURE) ;;
       response <- client (call_generate_content MODEL_ID prompt TEMPERATURE)
                     (generate_content ai MODEL_ID prompt TEMPERATURE) ;;
       lift (extract_insights response))
      is_Exception
      (fun e => ret ("Ocorreu uma exceção ao gerar insights: " ++ exn_str e)).

(** Lines 218-226: what a click on a transcript's button runs. *)
Definition generate_insights_clicked (transcript_id : pyval) : M unit :=
  text <- get_transcript_text_by_id transcript_id ;;
  if negb (PyStr.truthy (PyStr.strip text))
  then show (st_warning "Transcrição vazia ou não encontrada.")
  else
    insights <- generate_sales_insights text ;;
    show (st_success "Insights Gerados!") ;;
    show (st_markdown insights).

(** Lines 184-228. *)
Definition main : M unit :=
  show (st_set_page_config "Neural Sales - Monolítico" "wide") ;;
  show (st_title "Neural Sales - Web App (Monolítico)") ;;
  show (st_write (Plain (PyStr.lines
    [""; "    **Versão Inicial**  ";
     "    Esta aplicação lista transcrições do Fireflies e permite gerar insights via modelo Gemini do Google.";
     "    "]))) ;;
  load <- button_clicked LoadButton ;;
  (if load
   then
     listed <- get_fireflies_transcripts ;;
     session_set "transcripts" listed
   else ret tt) ;;
  present <- session_has "transcripts" ;;
  (if present then ret tt else session_set "transcripts" (PList [])) ;;
  transcripts <- session_get "transcripts" ;;
  if negb (Py.truthy transcripts)
  then
    show (st_info "Nenhuma transcrição listada ou botão 'Carregar Lista de Transcrições' não foi clicado.")
  else
    show (st_subheader "Transcrições Disponíveis") ;;
    each <- lift (Py.iter transcripts) ;;
    for_each each (fun transcript =>
      transcript_id <- lift (Py.getitem transcript "id") ;;
      title <- lift (Py.get transcript "title" (PStr "Título não informado")) ;;
      show (st_columns [3; 1]%Z) ;;
      show (st_write (Format "**ID**: {}" transcript_id)) ;;
      show (st_write (Format "**Título**: {}" title)) ;;
      go <- button_clicked (InsightsButton transcript_id) ;;
      (if go then generate_insights_clicked transcript_id else ret tt) ;;
      show (st_markdown "---")).

End App.

(** * Notions used in the statements *)

(** A computation that leaves [st.session_state] as it found it. *)
Definition keeps_session {A : Type} (m : M A) : Prop :=
  forall w, session_state (snd (m w)) = session_state w.

(** The requests the two operations send. *)
Definition transcripts_request (key url : string) : http_request :=
  HttpRequest url (PDict [("query", PStr transcripts_query)]) (headers key).

Definition transcript_request (key url : string) (transcript_id : pyval)
  : http_request :=
  HttpRequest url
    (PDict [("query", PStr transcript_query);
            ("variables", PDict [("id", transcript_id)])])
    (headers key).

(** The two notifications of a failed request (lines 62, 69, 103, 113). *)
Definition graphql_errors (errors : pyval) : st_call :=
  st_error (Format "Erro(s) retornado(s) pelo GraphQL: {}" errors).

Definition request_failed (error_text : string) : st_call :=
  st_error (Plain ("Falha na requisição ao Fireflies: " ++ error_text)).

(** A status for which [raise_for_status] raises: 4xx or 5xx. *)
Definition error_status (resp : http_response) : bool :=
  ((400 <=? status_code resp) && (status_code resp <? 600))%Z.

(** The failures of a request that the spec lists, each with the
    notification it leads to: the HTTP client raises, the status is an error
    status, the body is not JSON, or the body is an object with an [errors]
    key. *)
Inductive failure : http_outcome -> st_call -> Prop :=
| failure_transport (error_text : string) :
    failure (PostRaises error_text) (request_failed error_text)
| failure_status (resp : http_response) :
    error_status resp = true ->
    failure (PostReturns resp) (request_failed (http_error_text resp))
| failure_decode (resp : http_response) (error_text : string) :
    error_status resp = false ->
    body resp = NotJson error_text ->
    failure (PostReturns resp) (request_failed error_text)
| failure_graphql (resp : http_response) (items : list (string * pyval))
    (errors : pyval) :
    error_status resp = false ->
    body resp = Json (PDict items) ->
    Py.lookup "errors" items = Some errors ->
    failure (PostReturns resp) (graphql_errors errors).

(** A field of a JSON object that is absent, or holds the value [v]; an
    absent field reads as [default]. *)
Definition field_or (default : pyval) (k : string)
    (items : list (string * pyval)) (v : pyval) : Prop :=
  Py.lookup k items = Some v \/ (Py.lookup k items = None /\ v = default).

(** A sentence object with the text [t]. *)
Definition sentence_with_text (s : pyval) (t : string) : Prop :=
  exists items, s = PDict items /\ Py.lookup "text" items = Some (PStr t).

(** What the generative-AI client does when every call before the
    extraction goes through and [generate_content] gives [response]. *)
Definition answers (ai : genai) (key transcript_text : string)
    (response : GenerateContentResponse) : Prop :=
  key <> ""
  /\ configure ai key = Returned tt
  /\ GenerativeModel ai MODEL_ID = Returned tt
  /\ GenerationConfig ai TEMPERATURE = Returned tt
  /\ generate_content ai MODEL_ID (prompt_of transcript_text) TEMPERATURE
     = Returned response.

(** An attribute the object does not have. *)
Definition absent {A : Type} (a : attribute A) : Prop :=
  exists e, a = Raised e /\ exn_class_of e = AttributeError.

(** The response carries the block reason [reason]. *)
Definition has_block_reason (response : GenerateContentResponse)
    (reason : BlockReason) : Prop :=
  exists feedback,
    prompt_feedback response = Some feedback
    /\ block_reason feedback = reason
    /\ reason_value reason <> 0%Z.

Definition no_block_reason (response : GenerateContentResponse) : Prop :=
  forall feedback,
    prompt_feedback response = Some feedback ->
    reason_value (block_reason feedback) = 0%Z.

(** The primary text is blank once trimmed, or the response has none. *)
Definition primary_text_blank (response : GenerateContentResponse) : Prop :=
  (exists t, text response = Returned t /\ PyStr.strip t = "")
  \/ absent (text response).

(** The first content segment of a candidate. *)
Definition first_segment (c : Candidate) (p : Part) : Prop :=
  exists k ps, content c = Returned k /\ parts k = Returned (p :: ps).

(** A candidate with no content segment at all. *)
Definition no_segment (c : Candidate) : Prop :=
  absent (content c)
  \/ exists k, content c = Returned k
               /\ (absent (parts k) \/ parts k = Returned []).

(** A computation that leaves the part [f] of the world as it found it. *)
Definition keeps {A B : Type} (f : world -> B) (m : M A) : Prop :=
  forall w, f (snd (m w)) = f w.

(** The calls [generate_sales_insights] makes into the client, in the order
    of the source (lines 126, 152, 153, 155). *)
Definition client_calls (key transcript_text : string) : list genai_call :=
  [call_configure key;
   call_GenerativeModel MODEL_ID;
   call_GenerationConfig TEMPERATURE;
   call_generate_content MODEL_ID (prompt_of transcript_text) TEMPERATURE].

(** How many of them are made: none without a key, and then one more after
    each call that returns. *)
Definition calls_made (ai : genai) (key : string) : nat :=
  if negb (PyStr.truthy key) then 0
  else
    match configure ai key with
    | Raised _ => 1
    | Returned _ =>
        match GenerativeModel ai MODEL_ID with
        | Raised _ => 2
        | Returned _ =>
            match GenerationConfig ai TEMPERATURE with
            | Raised _ => 3
            | Returned _ => 4
            end
        end
    end.

(** The string [generate_sales_insights] returns for a caught exception
    (line 179). *)
Definition exception_message (e : exn) : string :=
  "Ocorreu uma exceção ao gerar insights: " ++ exn_str e.

(** The world after the widgets [cs] were shown one after the other. *)
Definition shown_all (cs : list st_call) (w : world) : world :=
  fold_left (fun w' c => shown c w') cs w.

(** What [main] shows before it looks at the session (lines 185-194). *)
Definition header : list st_call :=
  [st_set_page_config "Neural Sales - Monolítico" "wide";
   st_title "Neural Sales - Web App (Monolítico)";
   st_write (Plain (PyStr.lines
     [""; "    **Versão Inicial**  ";
      "    Esta aplicação lista transcrições do Fireflies e permite gerar insights via modelo Gemini do Google.";
      "    "]));
   st_button LoadButton].

(** The body of the loop of [main] (lines 208-228), and the part of [main]
    from the test of the list on (lines 202-228); [main] is put together
    from them in [main_parts] below. *)
Definition row_body (fireflies_key endpoint google_key : string) (net : backend)
    (ai : genai) (clicked : button -> bool) (transcript : pyval) : M unit :=
  transcript_id <- lift (Py.getitem transcript "id") ;;
  title <- lift (Py.get transcript "title" (PStr "Título não informado")) ;;
  show (st_columns [3; 1]%Z) ;;
  show (st_write (Format "**ID**: {}" transcript_id)) ;;
  show (st_write (Format "**Título**: {}" title)) ;;
  go <- button_clicked clicked (InsightsButton transcript_id) ;;
  (if go
   then generate_insights_clicked fireflies_key endpoint google_key net ai
          transcript_id
   else ret tt) ;;
  show (st_markdown "---").

Definition listing (fireflies_key endpoint google_key : string) (net : backend)
    (ai : genai) (clicked : button -> bool) (transcripts : pyval) : M unit :=
  if negb (Py.truthy transcripts)
  then
    show (st_info "Nenhuma transcrição listada ou botão 'Carregar Lista de Transcrições' não foi clicado.")
  else
    show (st_subheader "Transcrições Disponíveis") ;;
    each <- lift (Py.iter transcripts) ;;
    for_each each (row_body fireflies_key endpoint google_key net ai clicked).

(** What one listed transcript puts on the page when its button is not
    clicked: the transcript is an object with an id, and its title is the one
    it carries or the placeholder. *)
Definition row (transcript_id title : pyval) : list st_call :=
  [st_columns [3; 1]%Z;
   st_write (Format "**ID**: {}" transcript_id);
   st_write (Format "**Título**: {}" title);
   st_button (InsightsButton transcript_id);
   st_markdown "---"].

Definition renders (transcript : pyval) (r : list st_call) : Prop :=
  exists items transcript_id title,
    transcript = PDict items
    /\ Py.lookup "id" items = Some transcript_id
    /\ field_or (PStr "Título não informado") "title" items title
    /\ r = row transcript_id title.

(** The fixed text of the prompt before and after the transcript (lines
    129-133 and 135-148). *)
Definition prompt_head : string :=
  PyStr.lines
    [""; "Você é um especialista em análise de vendas com vasta experiência.";
     "Sua tarefa é analisar a seguinte transcrição de uma interação de vendas:";
     ""; PyStr.dquote ++ PyStr.dquote ++ PyStr.dquote; ""].

Definition prompt_tail : string :=
  PyStr.lines
    [""; PyStr.dquote ++ PyStr.dquote ++ PyStr.dquote; "";
     "Com base na transcrição, liste **INSIGHTS ACIONÁVEIS** de vendas. Organize sua resposta nas seguintes categorias:";
     ""; "- **Oportunidades de Venda**"; "- **Necessidades Explícitas**";
     "- **Necessidades Implícitas**"; "- **Objeções**";
     "- **Upsell/Cross-sell**"; "- **Estratégias Comerciais**";
     "- **Sentimento Geral**"; ""; "Responda em formato markdown."; ""].

(** A sentence object that has a text field, whatever it holds. *)
Definition sentence_with_field (s x : pyval) : Prop :=
  exists items, s = PDict items /\ Py.lookup "text" items = Some x.

(** * Examples *)

Module Example.

Definition fresh : world := World [] [] [] [].

Definition endpoint : string := "https://api.fireflies.ai/graphql".

(** A network that gives every request the same outcome. *)
Definition answering (out : http_outcome) : backend := fun _ _ => out.

Definition ok (v : pyval) : http_response := HttpResponse 200 "" (Json v).

Definition sentences_body (sentences : list pyval) : pyval :=
  PDict [("data", PDict [("transcript", PDict [("sentences", PList sentences)])])].

Definition sentence (t : string) : pyval := PDict [("text", PStr t)].

Definition hello_world : pyval := sentences_body [sentence "Hello"; sentence "world"].

Definition two_transcripts : pyval :=
  PDict [("data", PDict [("transcripts",
     PList [PDict [("id", PStr "t1"); ("title", PStr "Demo")];
            PDict [("id", PStr "t2")]])])].

Definition null_data : pyval := PDict [("data", PNone)].

Definition null_transcript : pyval := PDict [("data", PDict [("transcript", PNone)])].

Definition missing_text : pyval := sentences_body [sentence "Hello"; PDict []].

Definition invalid_key : pyval :=
  PDict [("errors", PList [PDict [("message", PStr "Invalid API key")]])].

Definition unauthorized : http_response :=
  HttpResponse 401
    "401 Client Error: Unauthorized for url: https://api.fireflies.ai/graphql"
    (Json invalid_key).

Definition empty_errors : pyval := PDict [("errors", PList []); ("data", PNone)].

(** A client whose calls all go through and whose model gives [r]. *)
Definition model_gives (r : result GenerateContentResponse) : genai :=
  {| configure := fun _ => Returned tt;
     GenerativeModel := fun _ => Returned tt;
     GenerationConfig := fun _ => Returned tt;
     generate_content := fun _ _ _ => r |}.

(** A client whose [configure] raises. *)
Definition configure_raises : genai :=
  {| configure := fun _ => Raised (Exn ValueError "invalid client options");
     GenerativeModel := fun _ => Returned tt;
     GenerationConfig := fun _ => Returned tt;
     generate_content := fun _ _ _ =>
       Raised (Exn (OtherException "RuntimeError") "not reached") |}.

Definition no_attribute {A : Type} (name : string) : attribute A :=
  Raised (Exn AttributeError ("object has no attribute '" ++ name ++ "'")).

Definition candidate_with (segments : list string) : Candidate :=
  {| content := Returned
       {| parts := Returned (map (fun t => {| part_text := Returned t |}) segments) |} |}.

(** Blank primary text, and a first segment with text around spaces. *)
Definition fallback_response : GenerateContentResponse :=
  {| prompt_feedback := None;
     candidates := [candidate_with ["  insight  "; "more"]];
     text := Returned "   " |}.

(** No primary text and a candidate without content. *)
Definition bare_response : GenerateContentResponse :=
  {| prompt_feedback := None;
     candidates := [{| content := no_attribute "content" |}];
     text := no_attribute "text" |}.

(** A response whose primary text cannot be read (the property raises
    [ValueError]) although its first candidate has a segment. *)
Definition unreadable_text : GenerateContentResponse :=
  {| prompt_feedback := None;
     candidates := [candidate_with ["insight"]];
     text := Raised (Exn ValueError "response.text needs a valid Part") |}.

Definition safety : BlockReason := {| reason_value := 1; reason_str := "SAFETY" |}.

Definition blocked_response : GenerateContentResponse :=
  {| prompt_feedback := Some {| block_reason := safety |};
     candidates := [candidate_with ["kept back"]];
     text := Returned "kept back" |}.

(** A session that holds two listed transcripts, and a user who clicks the
    insights buttons but not the load button. *)
Definition listed_session : world :=
  World [("transcripts",
          PList [PDict [("id", PStr "t1"); ("title", PStr "Demo")];
                 PDict [("id", PStr "t2")]])] [] [] [].

Definition insights_clicked (b : button) : bool :=
  match b with LoadButton => false | InsightsButton _ => true end.

(** A user who clicks nothing. *)
Definition idle (b : button) : bool := false.

(** A user who clicks the load button only. *)
Definition load_clicked (b : button) : bool :=
  match b with LoadButton => true | InsightsButton _ => false end.

(** A session whose second transcript has no id. *)
Definition broken_session : world :=
  World [("transcripts",
          PList [PDict [("id", PStr "t1"); ("title", PStr "Demo")];
                 PDict [("title", PStr "Lost")]])] [] [] [].

Definition null_text : pyval :=
  sentences_body [sentence "Hello"; PDict [("text", PNone)]].

End Example.

(** * Properties *)

(** ** Trimming, on examples *)

Example strip_keeps_inner_space :
  PyStr.strip ("  two words " ++ PyStr.nl) = "two words".
Proof. reflexivity. Qed.

Example strip_blank : PyStr.strip ("   " ++ PyStr.nl ++ " ") = "".
Proof. reflexivity. Qed.

(** U+00A0 before and U+2003 after, each in its UTF-8 bytes. *)
Example strip_wide_space :
  PyStr.strip
    (String (ascii_of_nat 194) (String (ascii_of_nat 160)
       ("x" ++ String (ascii_of_nat 226) (String (ascii_of_nat 128)
                 (String (ascii_of_nat 131) EmptyString)))))
  = "x".
Proof. reflexivity. Qed.

(** ** Running the combinators *)

(** A handler that catches every exception and returns leaves nothing
    raised. *)
Lemma try_except_all_returns {A : Type} (body : M A) (handler : exn -> M A) :
  (forall e w, exists a w', handler e w = (Returned a, w')) ->
  forall w, exists a w', try_except body is_Exception handler w = (Returned a, w').
Proof.
  intros Hh w. unfold try_except.
  destruct (body w) as [[a | e] w'].
  - now exists a, w'.
  - cbn. apply Hh.
Qed.

(** ** The frame of a computation: [st.session_state] *)

Lemma keeps_session_ret {A : Type} (a : A) : keeps_session (ret a).
Proof. now intros w. Qed.

Lemma keeps_session_lift {A : Type} (r : result A) : keeps_session (lift r).
Proof. now intros w. Qed.

Lemma keeps_session_show (c : st_call) : keeps_session (show c).
Proof. now intros w. Qed.

Lemma keeps_session_bind {A B : Type} (m : M A) (k : A -> M B) :
  keeps_session m -> (forall a, keeps_session (k a)) -> keeps_session (bind m k).
Proof.
  intros Hm Hk w. unfold bind.
  specialize (Hm w). destruct (m w) as [[a | e] w']; cbn in *.
  - now rewrite Hk.
  - exact Hm.
Qed.

Lemma keeps_session_try_except {A : Type} (body : M A) (catches : exn -> bool)
    (handler : exn -> M A) :
  keeps_session body -> (forall e, keeps_session (handler e)) ->
  keeps_session (try_except body catches handler).
Proof.
  intros Hb Hh w. unfold try_except.
  specialize (Hb w). destruct (body w) as [[a | e] w']; cbn in *.
  - exact Hb.
  - destruct (catches e); cbn; [now rewrite Hh | exact Hb].
Qed.

Lemma keeps_session_requests_post (net : backend) (url : string)
    (payload : pyval) (hs : list (string * string)) :
  keeps_session (requests_post net url payload hs).
Proof.
  intros w. unfold requests_post.
  now destruct (net (http_calls w) _).
Qed.

Lemma keeps_session_client {A : Type} (c : genai_call) (r : result A) :
  keeps_session (client c r).
Proof. now intros w. Qed.

Lemma keeps_session_if {A : Type} (b : bool) (m1 m2 : M A) :
  keeps_session m1 -> keeps_session m2 -> keeps_session (if b then m1 else m2).
Proof. now destruct b. Qed.

Create HintDb frame.
#[export] Hint Resolve keeps_session_ret keeps_session_lift keeps_session_show
  keeps_session_requests_post keeps_session_client : frame.

Ltac frame :=
  repeat first
    [ apply keeps_session_bind; [ | intros ? ]
    | apply keeps_session_try_except; [ | intros ? ]
    | apply keeps_session_if
    | solve [ auto with frame ] ].

Lemma keeps_session_get_transcript_text_by_id (key url : string) (net : backend)
    (transcript_id : pyval) :
  keeps_session (get_transcript_text_by_id key url net transcript_id).
Proof. unfold get_transcript_text_by_id. frame. Qed.

Lemma keeps_session_generate_sales_insights (key : string) (ai : genai)
    (transcript_text : string) :
  keeps_session (generate_sales_insights key ai transcript_text).
Proof. unfold generate_sales_insights. frame. Qed.

Lemma keeps_session_generate_insights_clicked (fireflies_key endpoint google_key : string)
    (net : backend) (ai : genai) (transcript_id : pyval) :
  keeps_session
    (generate_insights_clicked fireflies_key endpoint google_key net ai transcript_id).
Proof.
  unfold generate_insights_clicked.
  apply keeps_session_bind;
    [ apply keeps_session_get_transcript_text_by_id | intros text ].
  apply keeps_session_if; [ auto with frame | ].
  apply keeps_session_bind;
    [ apply keeps_session_generate_sales_insights | intros insights ].
  frame.
Qed.

(** C8: running what a click on a transcript's "Gerar Insights" button runs
    (get_transcript_text_by_id, then generate_sales_insights on a text that is
    not blank) leaves st.session_state, and so the transcript list kept in it,
    as it was: whatever the transcript id, the settings, the network and the
    generative-AI client do, and also when one of the two calls raises. *)
Theorem C8_insights_flow_keeps_transcript_list :
  forall (fireflies_key endpoint google_key : string) (net : backend) (ai : genai)
         (transcript_id : pyval) (w : world),
    let w' := snd (generate_insights_clicked fireflies_key endpoint google_key
                     net ai transcript_id w) in
    session_state w' = session_state w
    /\ Py.lookup "transcripts" (session_state w')
       = Py.lookup "transcripts" (session_state w).
Proof.
  intros fk ep gk net ai tid w w'.
  assert (H : session_state w' = session_state w)
    by apply keeps_session_generate_insights_clicked.
  split; [ exact H | now rewrite H ].
Qed.

Lemma keeps_session_for_each {A : Type} (l : list A) (body : A -> M unit) :
  (forall x, keeps_session (body x)) -> keeps_session (for_each l body).
Proof.
  intros H. induction l as [ | x rest IH ]; cbn.
  - apply keeps_session_ret.
  - apply keeps_session_bind; [ apply H | intros _; exact IH ].
Qed.

Lemma keeps_session_button_clicked (clicked : button -> bool) (b : button) :
  keeps_session (button_clicked clicked b).
Proof. unfold button_clicked. frame. Qed.

Lemma bind_keeps_from {A B : Type} (m : M A) (k : A -> M B) (w : world) :
  keeps_session m ->
  (forall a w', m w = (Returned a, w') -> session_state w' = session_state w ->
                session_state (snd (k a w')) = session_state w') ->
  session_state (snd (bind m k w)) = session_state w.
Proof.
  intros Hm Hk. unfold bind. specialize (Hm w).
  destruct (m w) as [[a | e] w']; cbn in *.
  - rewrite (Hk a w' eq_refl Hm). exact Hm.
  - exact Hm.
Qed.



(** ** The two GraphQL operations, case by case *)

Lemma truthy_nonempty (s : string) : s <> "" -> PyStr.truthy s = true.
Proof. destruct s; [ congruence | reflexivity ]. Qed.

Lemma raise_for_status_error (resp : http_response) :
  error_status resp = true ->
  raise_for_status resp = Raised (Exn RequestException (http_error_text resp)).
Proof. unfold error_status, raise_for_status. now intros ->. Qed.

Lemma raise_for_status_fine (resp : http_response) :
  error_status resp = false -> raise_for_status resp = Returned tt.
Proof. unfold error_status, raise_for_status. now intros ->. Qed.

(** What the body of each [try] does once the request is answered. *)
Ltac answered Hnet :=
  unfold try_except, bind, requests_post; cbn beta zeta;
  change (HttpRequest ?u (PDict [("query", PStr transcripts_query)]) (headers ?k))
    with (transcripts_request k u);
  change (HttpRequest ?u
            (PDict [("query", PStr transcript_query);
                    ("variables", PDict [("id", ?i)])]) (headers ?k))
    with (transcript_request k u i);
  rewrite Hnet; cbn.

Lemma lister_failure (key url : string) (net : backend) (w : world) (c : st_call) :
  key <> "" -> url <> "" ->
  failure (net (http_calls w) (transcripts_request key url)) c ->
  get_fireflies_transcripts key url net w
  = (Returned (PList []), shown c (requested (transcripts_request key url) w)).
Proof.
  intros Hk Hu Hf. unfold get_fireflies_transcripts.
  rewrite (truthy_nonempty _ Hk), (truthy_nonempty _ Hu). cbn [negb orb].
  inversion Hf as [msg Hnet | resp Hs Hnet | resp msg Hs Hb Hnet
                  | resp items errors Hs Hb He Hnet]; symmetry in Hnet.
  - answered Hnet. reflexivity.
  - answered Hnet. unfold lift. rewrite (raise_for_status_error _ Hs). reflexivity.
  - answered Hnet. unfold lift, json.
    rewrite (raise_for_status_fine _ Hs), Hb. reflexivity.
  - answered Hnet. unfold lift, json.
    rewrite (raise_for_status_fine _ Hs), Hb. cbn. rewrite He. reflexivity.
Qed.

Lemma fetcher_failure (key url : string) (net : backend) (transcript_id : pyval)
    (w : world) (c : st_call) :
  failure (net (http_calls w) (transcript_request key url transcript_id)) c ->
  get_transcript_text_by_id key url net transcript_id w
  = (Returned "", shown c (requested (transcript_request key url transcript_id) w)).
Proof.
  intros Hf. unfold get_transcript_text_by_id.
  inversion Hf as [msg Hnet | resp Hs Hnet | resp msg Hs Hb Hnet
                  | resp items errors Hs Hb He Hnet]; symmetry in Hnet.
  - answered Hnet. reflexivity.
  - answered Hnet. unfold lift. rewrite (raise_for_status_error _ Hs). reflexivity.
  - answered Hnet. unfold lift, json.
    rewrite (raise_for_status_fine _ Hs), Hb. reflexivity.
  - answered Hnet. unfold lift, json.
    rewrite (raise_for_status_fine _ Hs), Hb. cbn. rewrite He. reflexivity.
Qed.

Lemma get_field_or (default : pyval) (k : string) (items : list (string * pyval))
    (v : pyval) :
  field_or default k items v -> Py.get (PDict items) k default = Returned v.
Proof. unfold Py.get. now intros [-> | [-> ->]]. Qed.

Lemma lister_listed (key url : string) (net : backend) (w : world)
    (resp : http_response) (top data : list (string * pyval)) (listed : pyval) :
  key <> "" -> url <> "" ->
  net (http_calls w) (transcripts_request key url) = PostReturns resp ->
  error_status resp = false ->
  body resp = Json (PDict top) ->
  Py.lookup "errors" top = None ->
  field_or (PDict []) "data" top (PDict data) ->
  field_or (PList []) "transcripts" data listed ->
  get_fireflies_transcripts key url net w
  = (Returned listed, requested (transcripts_request key url) w).
Proof.
  intros Hk Hu Hnet Hs Hb He Hd Ht. unfold get_fireflies_transcripts.
  rewrite (truthy_nonempty _ Hk), (truthy_nonempty _ Hu). cbn [negb orb].
  answered Hnet. unfold lift, json.
  rewrite (raise_for_status_fine _ Hs), Hb. cbn -[Py.get]. rewrite He.
  rewrite (get_field_or _ _ _ _ Hd). cbn -[Py.get].
  rewrite (get_field_or _ _ _ _ Ht). reflexivity.
Qed.

Lemma comprehension_texts (sentences : list pyval) (texts : list string) :
  Forall2 sentence_with_text sentences texts ->
  comprehension (fun s => Py.getitem s "text") sentences
  = Returned (map PStr texts).
Proof.
  induction 1 as [ | s t ss ts (items & -> & Ht) _ IH ]; cbn.
  - reflexivity.
  - rewrite Ht. cbn. now rewrite IH.
Qed.

Lemma strings_map_PStr (texts : list string) :
  Py.strings (map PStr texts) = Returned texts.
Proof.
  induction texts as [ | t ts IH ]; cbn; [ reflexivity | now rewrite IH ].
Qed.

Lemma fetcher_joined (key url : string) (net : backend) (transcript_id : pyval)
    (w : world) (resp : http_response) (top data transcript : list (string * pyval))
    (sentences : list pyval) (texts : list string) :
  net (http_calls w) (transcript_request key url transcript_id) = PostReturns resp ->
  error_status resp = false ->
  body resp = Json (PDict top) ->
  Py.lookup "errors" top = None ->
  field_or (PDict []) "data" top (PDict data) ->
  field_or (PDict []) "transcript" data (PDict transcript) ->
  field_or (PList []) "sentences" transcript (PList sentences) ->
  Forall2 sentence_with_text sentences texts ->
  get_transcript_text_by_id key url net transcript_id w
  = (Returned (String.concat PyStr.nl texts),
     requested (transcript_request key url transcript_id) w).
Proof.
  intros Hnet Hs Hb He Hd Ht Hss Htx. unfold get_transcript_text_by_id.
  answered Hnet. unfold lift, json.
  rewrite (raise_for_status_fine _ Hs), Hb. cbn -[Py.get]. rewrite He.
  rewrite (get_field_or _ _ _ _ Hd). cbn -[Py.get].
  rewrite (get_field_or _ _ _ _ Ht). cbn -[Py.get].
  rewrite (get_field_or _ _ _ _ Hss). cbn -[comprehension Py.join].
  rewrite (comprehension_texts _ _ Htx). unfold Py.join.
  now rewrite strings_map_PStr.
Qed.

(** ** The Lister and the Fetcher *)

Lemma lister_unconfigured (key url : string) (net : backend) (w : world) :
  key = "" \/ url = "" ->
  get_fireflies_transcripts key url net w
  = (Returned (PList []),
     shown (st_error (Plain "Faltam configurações de acesso à API Fireflies.")) w).
Proof.
  intros H.
  assert (E : negb (PyStr.truthy key) || negb (PyStr.truthy url) = true).
  { destruct H as [-> | ->]; cbn; [ reflexivity | apply orb_true_r ]. }
  unfold get_fireflies_transcripts. now rewrite E.
Qed.

(** C5: when the transcription API key or the GraphQL endpoint URL is empty,
    get_fireflies_transcripts shows the configuration error, returns the empty
    list and makes no HTTP call: the world it leaves differs from the one it
    found by that one notification only. *)
Theorem C5_missing_configuration :
  forall (key url : string) (net : backend) (w : world),
    key = "" \/ url = "" ->
    get_fireflies_transcripts key url net w
    = (Returned (PList []),
       shown (st_error (Plain "Faltam configurações de acesso à API Fireflies.")) w)
    /\ http_calls (snd (get_fireflies_transcripts key url net w)) = http_calls w.
Proof.
  intros key url net w H.
  rewrite (lister_unconfigured key url net w H). split; reflexivity.
Qed.

Lemma C5_missing_configuration_witness :
  get_fireflies_transcripts "secret" "" (Example.answering (PostRaises "unreachable"))
    Example.fresh
  = (Returned (PList []),
     shown (st_error (Plain "Faltam configurações de acesso à API Fireflies."))
       Example.fresh)
  /\ http_calls (snd (get_fireflies_transcripts "secret" ""
                        (Example.answering (PostRaises "unreachable"))
                        Example.fresh))
     = http_calls Example.fresh.
Proof.
  apply (C5_missing_configuration "secret" "").
  right. reflexivity.
Defined.

(** A body that is an object with an [errors] key, whatever is under the
    key: the notification is the one of the status when the status is an error
    status, and the error list otherwise; the result is the empty default. *)
Lemma errors_key_failure (resp : http_response) (items : list (string * pyval))
    (errors : pyval) :
  body resp = Json (PDict items) ->
  Py.lookup "errors" items = Some errors ->
  failure (PostReturns resp)
    (if error_status resp then request_failed (http_error_text resp)
     else graphql_errors errors).
Proof.
  intros Hb He. destruct (error_status resp) eqn:Hs.
  - now apply failure_status.
  - now apply failure_graphql with (items := items).
Qed.

(** C10: the GraphQL-error branch is taken on the presence of the errors key
    alone.  For a response of status 200 whose body is an object with errors
    mapped to the empty array, get_fireflies_transcripts (settings present)
    shows the GraphQL error notification, for the empty list, and returns the
    empty list; get_transcript_text_by_id shows the same notification and
    returns the empty string. *)
Theorem C10_empty_errors_array_is_an_error :
  forall (key url : string) (net : backend) (w : world) (resp : http_response)
         (items : list (string * pyval)),
    key <> "" -> url <> "" ->
    status_code resp = 200%Z ->
    body resp = Json (PDict items) ->
    Py.lookup "errors" items = Some (PList []) ->
    (net (http_calls w) (transcripts_request key url) = PostReturns resp ->
     get_fireflies_transcripts key url net w
     = (Returned (PList []),
        shown (graphql_errors (PList []))
          (requested (transcripts_request key url) w)))
    /\ (forall transcript_id,
          net (http_calls w) (transcript_request key url transcript_id)
          = PostReturns resp ->
          get_transcript_text_by_id key url net transcript_id w
          = (Returned "",
             shown (graphql_errors (PList []))
               (requested (transcript_request key url transcript_id) w))).
Proof.
  intros key url net w resp items Hk Hu Hst Hb He.
  assert (Hs : error_status resp = false).
  { unfold error_status. now rewrite Hst. }
  split.
  - intros Hnet. apply lister_failure; trivial.
    rewrite Hnet. now apply failure_graphql with (items := items).
  - intros tid Hnet. apply fetcher_failure.
    rewrite Hnet. now apply failure_graphql with (items := items).
Qed.

Lemma C10_empty_errors_array_is_an_error_witness :
  get_fireflies_transcripts "secret" Example.endpoint
    (Example.answering (PostReturns (Example.ok Example.empty_errors)))
    Example.fresh
  = (Returned (PList []),
     shown (graphql_errors (PList []))
       (requested (transcripts_request "secret" Example.endpoint) Example.fresh))
  /\ get_transcript_text_by_id "secret" Example.endpoint
       (Example.answering (PostReturns (Example.ok Example.empty_errors)))
       (PStr "t1") Example.fresh
     = (Returned "",
        shown (graphql_errors (PList []))
          (requested (transcript_request "secret" Example.endpoint (PStr "t1"))
             Example.fresh)).
Proof.
  pose proof (C10_empty_errors_array_is_an_error "secret" Example.endpoint
                (Example.answering (PostReturns (Example.ok Example.empty_errors)))
                Example.fresh (Example.ok Example.empty_errors)
                [("errors", PList []); ("data", PNone)]) as H.
  destruct H as [Hl Hf]; try reflexivity; try discriminate.
  split; [ apply Hl | apply Hf ]; reflexivity.
Defined.

(** C7, as the code has it: a response of status 401 whose body carries a
    non-empty errors array.  Both operations return their empty default, but
    what they show is the failure of the request (raise_for_status comes
    first), not the error list. *)
Lemma C7_error_status_counterexample :
  get_fireflies_transcripts "secret" Example.endpoint
    (Example.answering (PostReturns Example.unauthorized)) Example.fresh
  = (Returned (PList []),
     shown (request_failed
              "401 Client Error: Unauthorized for url: https://api.fireflies.ai/graphql")
       (requested (transcripts_request "secret" Example.endpoint) Example.fresh))
  /\ get_transcript_text_by_id "secret" Example.endpoint
       (Example.answering (PostReturns Example.unauthorized)) (PStr "t1")
       Example.fresh
     = (Returned "",
        shown (request_failed
                 "401 Client Error: Unauthorized for url: https://api.fireflies.ai/graphql")
          (requested (transcript_request "secret" Example.endpoint (PStr "t1"))
             Example.fresh))
  /\ body Example.unauthorized
     = Json (PDict [("errors", PList [PDict [("message", PStr "Invalid API key")]])])
  /\ request_failed
       "401 Client Error: Unauthorized for url: https://api.fireflies.ai/graphql"
     <> graphql_errors (PList [PDict [("message", PStr "Invalid API key")]]).
Proof.
  repeat split; try reflexivity. discriminate.
Qed.

(** C7, amended: for every response whose body is an object with a non-empty
    errors array, get_fireflies_transcripts (settings present) returns the
    empty list and get_transcript_text_by_id the empty string, neither raises,
    and each shows one error notification: the error list when the status is
    not 4xx or 5xx (200 among them), the failure of the request when it is. *)
Theorem C7_errors_array_gives_empty_default :
  forall (key url : string) (net : backend) (w : world) (resp : http_response)
         (items : list (string * pyval)) (first : pyval) (others : list pyval),
    key <> "" -> url <> "" ->
    body resp = Json (PDict items) ->
    Py.lookup "errors" items = Some (PList (first :: others)) ->
    let notice :=
      if error_status resp then request_failed (http_error_text resp)
      else graphql_errors (PList (first :: others)) in
    (net (http_calls w) (transcripts_request key url) = PostReturns resp ->
     get_fireflies_transcripts key url net w
     = (Returned (PList []),
        shown notice (requested (transcripts_request key url) w)))
    /\ (forall transcript_id,
          net (http_calls w) (transcript_request key url transcript_id)
          = PostReturns resp ->
          get_transcript_text_by_id key url net transcript_id w
          = (Returned "",
             shown notice
               (requested (transcript_request key url transcript_id) w))).
Proof.
  intros key url net w resp items first others Hk Hu Hb He notice.
  pose proof (errors_key_failure resp items _ Hb He) as Hf. fold notice in Hf.
  split.
  - intros Hnet. apply lister_failure; trivial. now rewrite Hnet.
  - intros tid Hnet. apply fetcher_failure. now rewrite Hnet.
Qed.

Lemma C7_errors_array_gives_empty_default_witness :
  get_fireflies_transcripts "secret" Example.endpoint
    (Example.answering (PostReturns (Example.ok Example.invalid_key)))
    Example.fresh
  = (Returned (PList []),
     shown (graphql_errors (PList [PDict [("message", PStr "Invalid API key")]]))
       (requested (transcripts_request "secret" Example.endpoint) Example.fresh))
  /\ get_transcript_text_by_id "secret" Example.endpoint
       (Example.answering (PostReturns (Example.ok Example.invalid_key)))
       (PStr "t1") Example.fresh
     = (Returned "",
        shown (graphql_errors (PList [PDict [("message", PStr "Invalid API key")]]))
          (requested (transcript_request "secret" Example.endpoint (PStr "t1"))
             Example.fresh)).
Proof.
  pose proof (C7_errors_array_gives_empty_default "secret" Example.endpoint
                (Example.answering (PostReturns (Example.ok Example.invalid_key)))
                Example.fresh (Example.ok Example.invalid_key)
                [("errors", PList [PDict [("message", PStr "Invalid API key")]])]
                (PDict [("message", PStr "Invalid API key")]) []) as H.
  destruct H as [Hl Hf]; try reflexivity; try discriminate.
  split; [ apply Hl | apply Hf ]; reflexivity.
Defined.

(** C2, as the code has it: only [requests.RequestException] is caught.  A
    body with a null data field makes both operations raise AttributeError,
    a sentence object with no text field makes get_transcript_text_by_id
    raise KeyError, and so does a null transcript (AttributeError); no
    notification is shown in any of these cases. *)
Lemma C2_uncaught_counterexample :
  get_fireflies_transcripts "secret" Example.endpoint
    (Example.answering (PostReturns (Example.ok Example.null_data)))
    Example.fresh
  = (Raised (Exn AttributeError "'NoneType' object has no attribute 'get'"),
     requested (transcripts_request "secret" Example.endpoint) Example.fresh)
  /\ get_transcript_text_by_id "secret" Example.endpoint
       (Example.answering (PostReturns (Example.ok Example.null_data)))
       (PStr "t1") Example.fresh
     = (Raised (Exn AttributeError "'NoneType' object has no attribute 'get'"),
        requested (transcript_request "secret" Example.endpoint (PStr "t1"))
          Example.fresh)
  /\ get_transcript_text_by_id "secret" Example.endpoint
       (Example.answering (PostReturns (Example.ok Example.missing_text)))
       (PStr "t1") Example.fresh
     = (Raised (Exn KeyError "'text'"),
        requested (transcript_request "secret" Example.endpoint (PStr "t1"))
          Example.fresh)
  /\ get_transcript_text_by_id "secret" Example.endpoint
       (Example.answering (PostReturns (Example.ok Example.null_transcript)))
       (PStr "t1") Example.fresh
     = (Raised (Exn AttributeError "'NoneType' object has no attribute 'get'"),
        requested (transcript_request "secret" Example.endpoint (PStr "t1"))
          Example.fresh).
Proof. repeat split; reflexivity. Qed.

(** C2, amended.  Neither operation raises, and
    - when the HTTP client raises, the status is 4xx or 5xx, the body is not
      JSON, or the body is an object with an errors key, each shows one
      notification and returns its empty default (the empty list, the empty
      string); so does get_fireflies_transcripts when a setting is missing;
    - when the body is an object without errors whose data field is absent or
      an object, get_fireflies_transcripts returns the list under transcripts
      (the empty list when absent), and get_transcript_text_by_id, when
      transcript is absent or an object and sentences is absent or a list of
      objects that each carry a string text, returns a string.
    Bodies of other shapes are left out. *)
Theorem C2_failures_absorbed :
  forall (key url : string) (net : backend) (w : world),
    (key = "" \/ url = "" ->
     exists c, get_fireflies_transcripts key url net w
               = (Returned (PList []), shown c w))
    /\ (forall c,
          key <> "" -> url <> "" ->
          failure (net (http_calls w) (transcripts_request key url)) c ->
          get_fireflies_transcripts key url net w
          = (Returned (PList []),
             shown c (requested (transcripts_request key url) w)))
    /\ (forall transcript_id c,
          failure (net (http_calls w) (transcript_request key url transcript_id)) c ->
          get_transcript_text_by_id key url net transcript_id w
          = (Returned "",
             shown c (requested (transcript_request key url transcript_id) w)))
    /\ (forall resp top data listed,
          key <> "" -> url <> "" ->
          net (http_calls w) (transcripts_request key url) = PostReturns resp ->
          error_status resp = false ->
          body resp = Json (PDict top) ->
          Py.lookup "errors" top = None ->
          field_or (PDict []) "data" top (PDict data) ->
          field_or (PList []) "transcripts" data (PList listed) ->
          get_fireflies_transcripts key url net w
          = (Returned (PList listed),
             requested (transcripts_request key url) w))
    /\ (forall transcript_id resp top data transcript sentences texts,
          net (http_calls w) (transcript_request key url transcript_id)
          = PostReturns resp ->
          error_status resp = false ->
          body resp = Json (PDict top) ->
          Py.lookup "errors" top = None ->
          field_or (PDict []) "data" top (PDict data) ->
          field_or (PDict []) "transcript" data (PDict transcript) ->
          field_or (PList []) "sentences" transcript (PList sentences) ->
          Forall2 sentence_with_text sentences texts ->
          exists text,
            get_transcript_text_by_id key url net transcript_id w
            = (Returned text,
               requested (transcript_request key url transcript_id) w)).
Proof.
  intros key url net w. repeat apply conj.
  - intros H. eexists. apply (lister_unconfigured key url net w H).
  - intros c Hk Hu Hf. now apply lister_failure.
  - intros tid c Hf. now apply fetcher_failure.
  - intros resp top data listed Hk Hu Hnet Hs Hb He Hd Ht.
    now apply lister_listed with (resp := resp) (top := top) (data := data).
  - intros tid resp top data transcript sentences texts Hnet Hs Hb He Hd Ht Hss Htx.
    eexists.
    now apply fetcher_joined
      with (resp := resp) (top := top) (data := data) (transcript := transcript)
           (sentences := sentences) (texts := texts).
Qed.

Lemma C2_failures_absorbed_witness :
  get_fireflies_transcripts "secret" Example.endpoint
    (Example.answering (PostRaises "Connection refused")) Example.fresh
  = (Returned (PList []),
     shown (request_failed "Connection refused")
       (requested (transcripts_request "secret" Example.endpoint) Example.fresh))
  /\ get_transcript_text_by_id "secret" Example.endpoint
       (Example.answering (PostReturns (HttpResponse 200 "" (NotJson "Expecting value"))))
       (PStr "t1") Example.fresh
     = (Returned "",
        shown (request_failed "Expecting value")
          (requested (transcript_request "secret" Example.endpoint (PStr "t1"))
             Example.fresh))
  /\ get_fireflies_transcripts "secret" Example.endpoint
       (Example.answering (PostReturns (Example.ok (PDict [])))) Example.fresh
     = (Returned (PList []),
        requested (transcripts_request "secret" Example.endpoint) Example.fresh).
Proof.
  repeat apply conj.
  - apply (proj1 (proj2 (C2_failures_absorbed "secret" Example.endpoint
                           (Example.answering (PostRaises "Connection refused"))
                           Example.fresh)));
      [ discriminate | discriminate | apply failure_transport ].
  - apply (proj1 (proj2 (proj2 (C2_failures_absorbed "secret" Example.endpoint
             (Example.answering
                (PostReturns (HttpResponse 200 "" (NotJson "Expecting value"))))
             Example.fresh)))).
    apply failure_decode; reflexivity.
  - apply (proj1 (proj2 (proj2 (proj2 (C2_failures_absorbed "secret" Example.endpoint
             (Example.answering (PostReturns (Example.ok (PDict []))))
             Example.fresh))))
             (Example.ok (PDict [])) [] []);
      try discriminate; try reflexivity; right; split; reflexivity.
Defined.

(** C4: for every response that gets through (no error status, a JSON object
    without errors) and whose transcript carries a list of sentence objects
    with the texts t1, ..., tn in this order, get_transcript_text_by_id returns
    t1, ..., tn joined by single line feeds, in that order, and shows nothing.
    For the texts Hello and world this is Hello, a line feed, world; for no
    sentence at all it is the empty string. *)
Theorem C4_sentences_joined_by_newline :
  forall (key url : string) (net : backend) (transcript_id : pyval) (w : world)
         (resp : http_response) (top data transcript : list (string * pyval))
         (sentences : list pyval) (texts : list string),
    net (http_calls w) (transcript_request key url transcript_id) = PostReturns resp ->
    error_status resp = false ->
    body resp = Json (PDict top) ->
    Py.lookup "errors" top = None ->
    Py.lookup "data" top = Some (PDict data) ->
    Py.lookup "transcript" data = Some (PDict transcript) ->
    Py.lookup "sentences" transcript = Some (PList sentences) ->
    Forall2 sentence_with_text sentences texts ->
    let run := get_transcript_text_by_id key url net transcript_id w in
    run = (Returned (String.concat PyStr.nl texts),
           requested (transcript_request key url transcript_id) w)
    /\ (texts = ["Hello"; "world"] ->
        fst run = Returned ("Hello" ++ PyStr.nl ++ "world"))
    /\ (texts = [] -> fst run = Returned "").
Proof.
  intros key url net tid w resp top data transcript sentences texts
         Hnet Hs Hb He Hd Ht Hss Htx run.
  assert (E : run = (Returned (String.concat PyStr.nl texts),
                     requested (transcript_request key url tid) w)).
  { subst run.
    apply fetcher_joined
      with (resp := resp) (top := top) (data := data) (transcript := transcript)
           (sentences := sentences); trivial; now left. }
  rewrite E. repeat split; intros ->; reflexivity.
Qed.

Lemma C4_sentences_joined_by_newline_witness :
  get_transcript_text_by_id "secret" Example.endpoint
    (Example.answering (PostReturns (Example.ok Example.hello_world)))
    (PStr "t1") Example.fresh
  = (Returned ("Hello" ++ PyStr.nl ++ "world"),
     requested (transcript_request "secret" Example.endpoint (PStr "t1"))
       Example.fresh).
Proof.
  refine (proj1 (C4_sentences_joined_by_newline "secret" Example.endpoint
            (Example.answering (PostReturns (Example.ok Example.hello_world)))
            (PStr "t1") Example.fresh (Example.ok Example.hello_world)
            _ _ _ _ ["Hello"; "world"]
            eq_refl eq_refl eq_refl eq_refl eq_refl eq_refl eq_refl _)).
  repeat constructor; eexists; split; reflexivity.
Defined.

(** ** Calling the Lister twice *)

(** The outcome of the Lister is fixed by the settings and by what the
    network answers to its request. *)
Lemma lister_outcome_determined (key url : string) (net1 net2 : backend)
    (w1 w2 : world) :
  net1 (http_calls w1) (transcripts_request key url)
  = net2 (http_calls w2) (transcripts_request key url) ->
  fst (get_fireflies_transcripts key url net1 w1)
  = fst (get_fireflies_transcripts key url net2 w2).
Proof.
  intros H. unfold get_fireflies_transcripts.
  destruct (negb (PyStr.truthy key) || negb (PyStr.truthy url)); [ reflexivity | ].
  unfold try_except, bind, requests_post; cbn beta zeta.
  change (HttpRequest url (PDict [("query", PStr transcripts_query)]) (headers key))
    with (transcripts_request key url).
  rewrite H.
  destruct (net2 (http_calls w2) (transcripts_request key url)) as [msg | resp];
    [ reflexivity | ].
  unfold lift. cbn -[raise_for_status json Py.contains Py.getitem Py.get].
  destruct (raise_for_status resp) as [[] | e];
    [ | destruct (is_RequestException e); reflexivity ].
  destruct (json resp) as [data | e];
    [ | destruct (is_RequestException e); reflexivity ].
  destruct (Py.contains "errors" data) as [[ | ] | e];
    [ | | destruct (is_RequestException e); reflexivity ].
  - destruct (Py.getitem data "errors") as [errors | e];
      [ reflexivity | destruct (is_RequestException e); reflexivity ].
  - destruct (Py.get data "data" (PDict [])) as [d | e];
      [ | destruct (is_RequestException e); reflexivity ].
    destruct (Py.get d "transcripts" (PList [])) as [ts | e];
      [ reflexivity | destruct (is_RequestException e); reflexivity ].
Qed.

(** The Lister makes no HTTP call without its settings, and one with them. *)
Lemma lister_http_calls (key url : string) (net : backend) (w : world) :
  http_calls (snd (get_fireflies_transcripts key url net w))
  = if negb (PyStr.truthy key) || negb (PyStr.truthy url)
    then http_calls w
    else transcripts_request key url :: http_calls w.
Proof.
  unfold get_fireflies_transcripts.
  destruct (negb (PyStr.truthy key) || negb (PyStr.truthy url)); [ reflexivity | ].
  unfold try_except, bind, requests_post; cbn beta zeta.
  change (HttpRequest url (PDict [("query", PStr transcripts_query)]) (headers key))
    with (transcripts_request key url).
  destruct (net (http_calls w) (transcripts_request key url)) as [msg | resp];
    [ reflexivity | ].
  unfold lift. cbn -[raise_for_status json Py.contains Py.getitem Py.get].
  destruct (raise_for_status resp) as [[] | e];
    [ | destruct (is_RequestException e); reflexivity ].
  destruct (json resp) as [data | e];
    [ | destruct (is_RequestException e); reflexivity ].
  destruct (Py.contains "errors" data) as [[ | ] | e];
    [ | | destruct (is_RequestException e); reflexivity ].
  - destruct (Py.getitem data "errors") as [errors | e];
      [ reflexivity | destruct (is_RequestException e); reflexivity ].
  - destruct (Py.get data "data" (PDict [])) as [d | e];
      [ | destruct (is_RequestException e); reflexivity ].
    destruct (Py.get d "transcripts" (PList [])) as [ts | e];
      [ reflexivity | destruct (is_RequestException e); reflexivity ].
Qed.

(** C9: when the network answers the repeated request as it answered it the
    first time, a second call of get_fireflies_transcripts, made in the world
    the first one left, has the outcome of the first: the same list, element by
    element and in the same order. *)
Theorem C9_listing_twice_gives_equal_lists :
  forall (key url : string) (net : backend) (w : world),
    (forall req, net (req :: http_calls w) req = net (http_calls w) req) ->
    let first := get_fireflies_transcripts key url net w in
    let second := get_fireflies_transcripts key url net (snd first) in
    fst second = fst first
    /\ (forall listed, fst first = Returned listed -> fst second = Returned listed).
Proof.
  intros key url net w Hnet first second.
  assert (E : fst second = fst first).
  { subst first second. apply lister_outcome_determined.
    rewrite lister_http_calls.
    destruct (negb (PyStr.truthy key) || negb (PyStr.truthy url));
      [ reflexivity | apply Hnet ]. }
  split; [ exact E | intros listed H; now rewrite E ].
Qed.

Lemma C9_listing_twice_gives_equal_lists_witness :
  let net := Example.answering (PostReturns (Example.ok Example.two_transcripts)) in
  let first := get_fireflies_transcripts "secret" Example.endpoint net Example.fresh in
  let second := get_fireflies_transcripts "secret" Example.endpoint net (snd first) in
  fst first
  = Returned (PList [PDict [("id", PStr "t1"); ("title", PStr "Demo")];
                     PDict [("id", PStr "t2")]])
  /\ fst second = fst first.
Proof.
  split; [ reflexivity | ].
  refine (proj1 (C9_listing_twice_gives_equal_lists "secret" Example.endpoint
                   (Example.answering
                      (PostReturns (Example.ok Example.two_transcripts)))
                   Example.fresh _)).
  intros req. reflexivity.
Defined.

(** ** The Insight Generator *)

(** C6: with an empty generative-AI API key, generate_sales_insights returns
    the fixed not-configured message for every input text; it raises nothing
    and leaves the world as it found it, so neither the generative-AI client
    nor the network is called. *)
Theorem C6_missing_google_key :
  forall (ai : genai) (transcript_text : string) (w : world),
    generate_sales_insights "" ai transcript_text w
    = (Returned "Chave de API do Google não configurada.", w)
    /\ genai_calls (snd (generate_sales_insights "" ai transcript_text w))
       = genai_calls w
    /\ http_calls (snd (generate_sales_insights "" ai transcript_text w))
       = http_calls w.
Proof. intros ai transcript_text w. repeat split. Qed.

(** The handler of the generator's [try] returns on every exception. *)
Lemma generator_handler_returns (e : exn) (w : world) :
  exists (s : string) (w' : world),
    ret ("Ocorreu uma exceção ao gerar insights: " ++ exn_str e) w
    = (Returned s, w').
Proof. now eexists; eexists. Qed.

(** C1, as the code has it: [genai.configure] is called before the [try]
    block, so what it raises reaches the caller. *)
Lemma C1_configure_counterexample :
  generate_sales_insights "secret" Example.configure_raises "Hello" Example.fresh
  = (Raised (Exn ValueError "invalid client options"),
     called (call_configure "secret") Example.fresh).
Proof. reflexivity. Qed.

(** C1, amended: for every input text and every behaviour of the
    generative-AI client in which the call of genai.configure returns (or is
    not made, the key being empty), generate_sales_insights returns a string
    and raises nothing: whatever the construction of the model and of its
    configuration, the invocation and the reading of the response raise is
    caught and turned into the returned string. *)
Theorem C1_generator_returns_a_string :
  forall (key : string) (ai : genai) (transcript_text : string) (w : world),
    key = "" \/ configure ai key = Returned tt ->
    exists (s : string) (w' : world),
      generate_sales_insights key ai transcript_text w = (Returned s, w').
Proof.
  intros key ai transcript_text w H. unfold generate_sales_insights.
  destruct (negb (PyStr.truthy key)) eqn:Hk.
  - now eexists; eexists.
  - destruct H as [-> | H]; [ discriminate | ].
    unfold bind at 1. unfold client at 1. rewrite H.
    apply try_except_all_returns. apply generator_handler_returns.
Qed.

Lemma C1_generator_returns_a_string_witness :
  exists (s : string) (w' : world),
    generate_sales_insights "secret"
      (Example.model_gives (Raised (Exn (OtherException "DeadlineExceeded") "504")))
      "Hello" Example.fresh
    = (Returned s, w').
Proof.
  apply (C1_generator_returns_a_string "secret"
           (Example.model_gives
              (Raised (Exn (OtherException "DeadlineExceeded") "504")))
           "Hello" Example.fresh).
  right. reflexivity.
Defined.

(** The generator once the client has answered: the four calls are made, and
    the result is the extracted string, or the message of the exception that
    the extraction raised. *)
Lemma generator_answered (key : string) (ai : genai) (transcript_text : string)
    (w : world) (response : GenerateContentResponse) :
  answers ai key transcript_text response ->
  generate_sales_insights key ai transcript_text w
  = (match extract_insights response with
     | Returned s => Returned s
     | Raised e => Returned ("Ocorreu uma exceção ao gerar insights: " ++ exn_str e)
     end,
     called (call_generate_content MODEL_ID (prompt_of transcript_text) TEMPERATURE)
       (called (call_GenerationConfig TEMPERATURE)
          (called (call_GenerativeModel MODEL_ID)
             (called (call_configure key) w)))).
Proof.
  intros (Hk & Hc & Hm & Hg & Hr). unfold generate_sales_insights.
  rewrite (truthy_nonempty _ Hk). cbn [negb].
  unfold try_except, bind, client, lift. rewrite Hc, Hm, Hg, Hr.
  destruct (extract_insights response); reflexivity.
Qed.

Lemma blocked_reason (response : GenerateContentResponse) (reason : BlockReason) :
  has_block_reason response reason -> blocked response = Some reason.
Proof.
  intros (feedback & Hf & <- & Hv). unfold blocked. rewrite Hf.
  destruct (Z.eqb_spec (reason_value (block_reason feedback)) 0); congruence.
Qed.

Lemma blocked_none (response : GenerateContentResponse) :
  no_block_reason response -> blocked response = None.
Proof.
  intros H. unfold blocked.
  destruct (prompt_feedback response) as [feedback | ] eqn:Hf; [ | reflexivity ].
  now rewrite (H feedback Hf).
Qed.

Lemma hasattr_absent {A : Type} (a : attribute A) :
  absent a -> hasattr a = Returned false.
Proof.
  intros (e & -> & He). unfold hasattr, is_AttributeError. now rewrite He.
Qed.

(** The primary text is not used when it is blank or absent. *)
Lemma primary_not_used (response : GenerateContentResponse) :
  primary_text_blank response ->
  and_then (hasattr (text response))
    (fun h => and_also h
       (and_then (text response)
          (fun t => Returned (PyStr.truthy (PyStr.strip t)))))
  = Returned false.
Proof.
  intros [(t & Ht & Hb) | Ha].
  - rewrite Ht. cbn. now rewrite Hb.
  - now rewrite (hasattr_absent _ Ha).
Qed.

Lemma extract_first_segment (response : GenerateContentResponse)
    (c : Candidate) (cs : list Candidate) (p : Part) (s : string) :
  no_block_reason response ->
  candidates response = c :: cs ->
  primary_text_blank response ->
  first_segment c p ->
  part_text p = Returned s ->
  extract_insights response = Returned (PyStr.strip s).
Proof.
  intros Hn Hc Hp (k & ps & Hk & Hps) Hs. unfold extract_insights.
  rewrite (blocked_none _ Hn), Hc, (primary_not_used _ Hp).
  cbn [and_then]. rewrite Hk. cbn. rewrite Hps. cbn. now rewrite Hs.
Qed.

Lemma extract_no_segment (response : GenerateContentResponse)
    (c : Candidate) (cs : list Candidate) :
  no_block_reason response ->
  candidates response = c :: cs ->
  primary_text_blank response ->
  no_segment c ->
  extract_insights response
  = Returned "Não foi possível extrair insights do modelo.".
Proof.
  intros Hn Hc Hp Hs. unfold extract_insights.
  rewrite (blocked_none _ Hn), Hc, (primary_not_used _ Hp).
  cbn [and_then].
  destruct Hs as [Ha | (k & Hk & [Ha | He])].
  - now rewrite (hasattr_absent _ Ha).
  - rewrite Hk. cbn. now rewrite (hasattr_absent _ Ha).
  - rewrite Hk. cbn. now rewrite He.
Qed.

Lemma extract_primary (response : GenerateContentResponse) (t : string) :
  no_block_reason response ->
  candidates response <> [] ->
  text response = Returned t ->
  PyStr.strip t <> "" ->
  extract_insights response = Returned (PyStr.strip t).
Proof.
  intros Hn Hc Ht Hb. unfold extract_insights.
  rewrite (blocked_none _ Hn).
  destruct (candidates response) as [ | c cs ]; [ congruence | ].
  rewrite Ht. cbn. now rewrite (truthy_nonempty _ Hb).
Qed.

(** C3: once the client has answered with a response, generate_sales_insights
    reads it in this order.
    (1) A block reason gives the blocked message ending in that reason,
        whatever the candidates and the text are.
    (2) Otherwise, no candidate gives the fixed no-candidate message.
    (3) Otherwise, a primary text that is not blank once trimmed is returned
        trimmed.
    (4) Otherwise, the text of the first segment of the first candidate is
        returned trimmed; in particular a response with blank primary text and
        a first segment that is not blank gives that segment, trimmed.
    (5) Otherwise (no such segment), the fixed could-not-extract message. *)
Theorem C3_extraction_order :
  forall (key : string) (ai : genai) (transcript_text : string) (w : world)
         (response : GenerateContentResponse),
    answers ai key transcript_text response ->
    let result := fst (generate_sales_insights key ai transcript_text w) in
    (forall reason,
        has_block_reason response reason ->
        result = Returned ("**Bloqueado pelo modelo**. Razão: " ++ reason_str reason))
    /\ (no_block_reason response ->
        candidates response = [] ->
        result = Returned "Nenhum candidato de resposta retornado.")
    /\ (forall t,
          no_block_reason response ->
          candidates response <> [] ->
          text response = Returned t ->
          PyStr.strip t <> "" ->
          result = Returned (PyStr.strip t))
    /\ (forall c cs p s,
          no_block_reason response ->
          candidates response = c :: cs ->
          primary_text_blank response ->
          first_segment c p ->
          part_text p = Returned s ->
          result = Returned (PyStr.strip s))
    /\ (forall c cs,
          no_block_reason response ->
          candidates response = c :: cs ->
          primary_text_blank response ->
          no_segment c ->
          result = Returned "Não foi possível extrair insights do modelo.").
Proof.
  intros key ai transcript_text w response Ha result.
  subst result. rewrite (generator_answered _ _ _ _ _ Ha). cbn [fst].
  repeat apply conj.
  - intros reason Hr. unfold extract_insights.
    now rewrite (blocked_reason _ _ Hr).
  - intros Hn Hc. unfold extract_insights.
    now rewrite (blocked_none _ Hn), Hc.
  - intros t Hn Hc Ht Hb. now rewrite (extract_primary _ _ Hn Hc Ht Hb).
  - intros c cs p s Hn Hc Hp Hf Hs.
    now rewrite (extract_first_segment _ _ _ _ _ Hn Hc Hp Hf Hs).
  - intros c cs Hn Hc Hp Hs. now rewrite (extract_no_segment _ _ _ Hn Hc Hp Hs).
Qed.

Lemma C3_extraction_order_witness :
  fst (generate_sales_insights "secret"
         (Example.model_gives (Returned Example.fallback_response))
         "Hello" Example.fresh)
  = Returned "insight"
  /\ fst (generate_sales_insights "secret"
            (Example.model_gives (Returned Example.blocked_response))
            "Hello" Example.fresh)
     = Returned "**Bloqueado pelo modelo**. Razão: SAFETY"
  /\ fst (generate_sales_insights "secret"
            (Example.model_gives (Returned Example.bare_response))
            "Hello" Example.fresh)
     = Returned "Não foi possível extrair insights do modelo.".
Proof.
  repeat apply conj.
  - refine (proj1 (proj2 (proj2 (proj2
              (C3_extraction_order "secret"
                 (Example.model_gives (Returned Example.fallback_response))
                 "Hello" Example.fresh Example.fallback_response _))))
              (Example.candidate_with ["  insight  "; "more"]) []
              {| part_text := Returned "  insight  " |} "  insight  "
              _ eq_refl _ _ eq_refl).
    + repeat split; discriminate.
    + intros feedback H. discriminate H.
    + left. exists "   ". split; reflexivity.
    + eexists. eexists. split; reflexivity.
  - refine (proj1 (C3_extraction_order "secret"
                     (Example.model_gives (Returned Example.blocked_response))
                     "Hello" Example.fresh Example.blocked_response _)
              Example.safety _).
    + repeat split; discriminate.
    + eexists. repeat split. discriminate.
  - refine (proj2 (proj2 (proj2 (proj2
              (C3_extraction_order "secret"
                 (Example.model_gives (Returned Example.bare_response))
                 "Hello" Example.fresh Example.bare_response _))))
              {| content := Example.no_attribute "content" |} []
              _ eq_refl _ _).
    + repeat split; discriminate.
    + intros feedback H. discriminate H.
    + right. eexists. split; reflexivity.
    + left. eexists. split; reflexivity.
Defined.

(** * Further properties of the code *)

(** ** What each operation leaves alone *)

Lemma keeps_ret {A B : Type} (f : world -> B) (a : A) : keeps f (ret a).
Proof. now intros w. Qed.

Lemma keeps_lift {A B : Type} (f : world -> B) (r : result A) : keeps f (lift r).
Proof. now intros w. Qed.

Lemma keeps_bind {A B C : Type} (f : world -> C) (m : M A) (k : A -> M B) :
  keeps f m -> (forall a, keeps f (k a)) -> keeps f (bind m k).
Proof.
  intros Hm Hk w. unfold bind.
  specialize (Hm w). destruct (m w) as [[a | e] w']; cbn in *.
  - now rewrite Hk.
  - exact Hm.
Qed.

Lemma keeps_try_except {A C : Type} (f : world -> C) (body : M A)
    (catches : exn -> bool) (handler : exn -> M A) :
  keeps f body -> (forall e, keeps f (handler e)) ->
  keeps f (try_except body catches handler).
Proof.
  intros Hb Hh w. unfold try_except.
  specialize (Hb w). destruct (body w) as [[a | e] w']; cbn in *.
  - exact Hb.
  - destruct (catches e); cbn; [ now rewrite Hh | exact Hb ].
Qed.

Lemma keeps_if {A C : Type} (f : world -> C) (b : bool) (m1 m2 : M A) :
  keeps f m1 -> keeps f m2 -> keeps f (if b then m1 else m2).
Proof. now destruct b. Qed.

Lemma show_keeps_http_calls (c : st_call) : keeps http_calls (show c).
Proof. now intros w. Qed.

Lemma show_keeps_genai_calls (c : st_call) : keeps genai_calls (show c).
Proof. now intros w. Qed.

Lemma client_keeps_http_calls {A : Type} (c : genai_call) (r : result A) :
  keeps http_calls (client c r).
Proof. now intros w. Qed.

Lemma client_keeps_page {A : Type} (c : genai_call) (r : result A) :
  keeps page (client c r).
Proof. now intros w. Qed.

Lemma requests_post_keeps_genai_calls (net : backend) (url : string)
    (payload : pyval) (hs : list (string * string)) :
  keeps genai_calls (requests_post net url payload hs).
Proof. intros w. unfold requests_post. now destruct (net (http_calls w) _). Qed.

Create HintDb kept.
#[export] Hint Resolve keeps_ret keeps_lift show_keeps_http_calls
  show_keeps_genai_calls client_keeps_http_calls client_keeps_page
  requests_post_keeps_genai_calls : kept.

Ltac kept :=
  repeat first
    [ apply keeps_bind; [ | intros ? ]
    | apply keeps_try_except; [ | intros ? ]
    | apply keeps_if
    | solve [ auto with kept ] ].

(** A [try] whose body starts with the request makes that one request and,
    when nothing after it touches the network, no other. *)
Lemma one_request {A : Type} (net : backend) (url : string) (payload : pyval)
    (hs : list (string * string)) (k : http_response -> M A)
    (catches : exn -> bool) (handler : exn -> M A) (w : world) :
  (forall resp, keeps http_calls (k resp)) ->
  (forall e, keeps http_calls (handler e)) ->
  http_calls (snd (try_except (bind (requests_post net url payload hs) k)
                     catches handler w))
  = HttpRequest url payload hs :: http_calls w.
Proof.
  intros Hk Hh. unfold try_except, bind, requests_post.
  destruct (net (http_calls w) (HttpRequest url payload hs)) as [msg | resp].
  - destruct (catches _); [ | reflexivity ]. now rewrite Hh.
  - pose proof (Hk resp (requested (HttpRequest url payload hs) w)) as H.
    destruct (k resp _) as [[a | e] w']; cbn in *; [ exact H | ].
    destruct (catches e); cbn; [ now rewrite Hh | exact H ].
Qed.

(** X2: get_fireflies_transcripts makes no HTTP call when a setting is empty
    and exactly one, the transcripts query sent to the endpoint with the
    bearer key, when both are set: whatever the network answers and also when
    the call ends in an exception.  It never calls the generative-AI
    client and never writes st.session_state. *)
Theorem lister_calls :
  forall (key url : string) (net : backend) (w : world),
    let w' := snd (get_fireflies_transcripts key url net w) in
    (key = "" \/ url = "" -> http_calls w' = http_calls w)
    /\ (key <> "" -> url <> "" ->
        http_calls w' = transcripts_request key url :: http_calls w)
    /\ genai_calls w' = genai_calls w
    /\ session_state w' = session_state w.
Proof.
  intros key url net w w'. subst w'. repeat apply conj.
  - intros H. now rewrite (lister_unconfigured key url net w H).
  - intros Hk Hu. unfold get_fireflies_transcripts.
    rewrite (truthy_nonempty _ Hk), (truthy_nonempty _ Hu). cbn [negb orb].
    apply one_request; intros; kept.
  - revert w. change (keeps genai_calls (get_fireflies_transcripts key url net)).
    unfold get_fireflies_transcripts. kept.
  - revert w. change (keeps_session (get_fireflies_transcripts key url net)).
    unfold get_fireflies_transcripts. frame.
Qed.

Lemma lister_calls_witness :
  http_calls
    (snd (get_fireflies_transcripts "secret" Example.endpoint
            (Example.answering (PostReturns (Example.ok Example.null_data)))
            Example.fresh))
  = [transcripts_request "secret" Example.endpoint].
Proof.
  refine (proj1 (proj2 (lister_calls "secret" Example.endpoint
                          (Example.answering
                             (PostReturns (Example.ok Example.null_data)))
                          Example.fresh)) _ _); discriminate.
Defined.

(** X3: get_transcript_text_by_id checks no setting: for every key and
    endpoint, the empty ones included, every transcript id and every answer of
    the network it makes exactly one HTTP call, the transcript query with the
    id under variables.id, also when it ends in an exception.  It never calls
    the generative-AI client and never writes st.session_state. *)
Theorem fetcher_always_one_request :
  forall (key url : string) (net : backend) (transcript_id : pyval) (w : world),
    let w' := snd (get_transcript_text_by_id key url net transcript_id w) in
    http_calls w' = transcript_request key url transcript_id :: http_calls w
    /\ genai_calls w' = genai_calls w
    /\ session_state w' = session_state w.
Proof.
  intros key url net tid w w'. subst w'. repeat apply conj.
  - unfold get_transcript_text_by_id. apply one_request; intros; kept.
  - revert w.
    change (keeps genai_calls (get_transcript_text_by_id key url net tid)).
    unfold get_transcript_text_by_id. kept.
  - apply keeps_session_get_transcript_text_by_id.
Qed.

(** X4: generate_sales_insights reports through its result only: for every
    key, client behaviour and input text it shows nothing on the page, makes
    no HTTP call and leaves st.session_state as it was, also when it raises. *)
Theorem generator_reports_by_result_only :
  forall (key : string) (ai : genai) (transcript_text : string) (w : world),
    let w' := snd (generate_sales_insights key ai transcript_text w) in
    page w' = page w
    /\ http_calls w' = http_calls w
    /\ session_state w' = session_state w.
Proof.
  intros key ai text w w'. subst w'. repeat apply conj.
  - revert w. change (keeps page (generate_sales_insights key ai text)).
    unfold generate_sales_insights. kept.
  - revert w. change (keeps http_calls (generate_sales_insights key ai text)).
    unfold generate_sales_insights. kept.
  - apply keeps_session_generate_sales_insights.
Qed.

(** X5: the calls generate_sales_insights makes into the client are an
    initial part of configure, GenerativeModel, GenerationConfig,
    generate_content, in this order: none without a key, and each further one
    only when the one before returned.  So the model is invoked at most once,
    with the fixed model id, the prompt built from the text and the fixed
    temperature, and nothing is retried. *)
Theorem generator_client_calls :
  forall (key : string) (ai : genai) (transcript_text : string) (w : world),
    genai_calls (snd (generate_sales_insights key ai transcript_text w))
    = (rev (firstn (calls_made ai key) (client_calls key transcript_text))
       ++ genai_calls w)%list.
Proof.
  intros key ai text w. unfold generate_sales_insights, calls_made.
  destruct (negb (PyStr.truthy key)); [ reflexivity | ].
  unfold try_except, bind, client, lift.
  destruct (configure ai key) as [[] | e0]; [ | reflexivity ].
  destruct (GenerativeModel ai MODEL_ID) as [[] | e1]; [ | reflexivity ].
  destruct (GenerationConfig ai TEMPERATURE) as [[] | e2]; [ | reflexivity ].
  destruct (generate_content ai MODEL_ID (prompt_of text) TEMPERATURE)
    as [response | e3]; [ | reflexivity ].
  destruct (extract_insights response); reflexivity.
Qed.

(** ** The generator's failures *)

(** X6: with a key, once genai.configure has returned, an exception raised
    by the construction of the model, by the construction of its
    configuration or by generate_content does not reach the caller:
    generate_sales_insights returns the fixed prefix followed by the text of
    that exception. *)
Theorem generator_failure_message :
  forall (key : string) (ai : genai) (transcript_text : string) (w : world)
         (e : exn),
    key <> "" ->
    configure ai key = Returned tt ->
    GenerativeModel ai MODEL_ID = Raised e
    \/ (GenerativeModel ai MODEL_ID = Returned tt
        /\ GenerationConfig ai TEMPERATURE = Raised e)
    \/ (GenerativeModel ai MODEL_ID = Returned tt
        /\ GenerationConfig ai TEMPERATURE = Returned tt
        /\ generate_content ai MODEL_ID (prompt_of transcript_text) TEMPERATURE
           = Raised e) ->
    fst (generate_sales_insights key ai transcript_text w)
    = Returned ("Ocorreu uma exceção ao gerar insights: " ++ exn_str e).
Proof.
  intros key ai text w e Hk Hc H. unfold generate_sales_insights.
  rewrite (truthy_nonempty _ Hk). cbn [negb].
  unfold try_except, bind, client, lift. rewrite Hc.
  destruct H as [Hm | [(Hm & Hg) | (Hm & Hg & Hr)]].
  - now rewrite Hm.
  - now rewrite Hm, Hg.
  - now rewrite Hm, Hg, Hr.
Qed.

Lemma generator_failure_message_witness :
  fst (generate_sales_insights "secret"
         (Example.model_gives (Raised (Exn (OtherException "DeadlineExceeded") "504")))
         "Hello" Example.fresh)
  = Returned "Ocorreu uma exceção ao gerar insights: 504".
Proof.
  apply (generator_failure_message "secret"
           (Example.model_gives
              (Raised (Exn (OtherException "DeadlineExceeded") "504")))
           "Hello" Example.fresh
           (Exn (OtherException "DeadlineExceeded") "504")).
  - discriminate.
  - reflexivity.
  - right. right. repeat split.
Defined.

Lemma hasattr_raises {A : Type} (a : attribute A) (e : exn) :
  a = Raised e -> exn_class_of e <> AttributeError -> hasattr a = Raised e.
Proof.
  intros -> He. unfold hasattr, is_AttributeError.
  destruct (exn_class_of e); congruence.
Qed.

(** X7: errors met while the response is read end in the exception message,
    not in a later step of the extraction.  With no block reason and a first
    candidate, (1) a primary text whose reading raises anything but
    AttributeError gives the message of that exception, whatever segments the
    candidates hold: the fallback is not tried; (2) with a blank or absent
    primary text, a first segment whose text cannot be read gives the message
    of that exception, not the could-not-extract message. *)
Theorem response_read_errors :
  forall (key : string) (ai : genai) (transcript_text : string) (w : world)
         (response : GenerateContentResponse) (c : Candidate)
         (cs : list Candidate),
    answers ai key transcript_text response ->
    no_block_reason response ->
    candidates response = c :: cs ->
    let result := fst (generate_sales_insights key ai transcript_text w) in
    (forall e,
        text response = Raised e ->
        exn_class_of e <> AttributeError ->
        result = Returned (exception_message e))
    /\ (forall e p,
          primary_text_blank response ->
          first_segment c p ->
          part_text p = Raised e ->
          result = Returned (exception_message e)).
Proof.
  intros key ai text w response c cs Ha Hn Hc result. subst result.
  rewrite (generator_answered _ _ _ _ _ Ha). cbn [fst].
  unfold extract_insights. rewrite (blocked_none _ Hn), Hc. split.
  - intros e Ht He. now rewrite (hasattr_raises _ _ Ht He).
  - intros e p Hp (k & ps & Hk & Hps) Hpt.
    rewrite (primary_not_used _ Hp). cbn [and_then].
    rewrite Hk. cbn. rewrite Hps. cbn. now rewrite Hpt.
Qed.

Lemma response_read_errors_witness :
  fst (generate_sales_insights "secret"
         (Example.model_gives (Returned Example.unreadable_text))
         "Hello" Example.fresh)
  = Returned
      "Ocorreu uma exceção ao gerar insights: response.text needs a valid Part".
Proof.
  refine (proj1 (response_read_errors "secret"
                   (Example.model_gives (Returned Example.unreadable_text))
                   "Hello" Example.fresh Example.unreadable_text
                   (Example.candidate_with ["insight"]) [] _ _ eq_refl)
            (Exn ValueError "response.text needs a valid Part") eq_refl _).
  - repeat split; discriminate.
  - intros feedback H. discriminate H.
  - discriminate.
Defined.

(** ** The handler of a transcript's button *)

(** The generator returns whenever genai.configure does. *)
Lemma generator_returns (key : string) (ai : genai) (transcript_text : string)
    (w : world) :
  key = "" \/ configure ai key = Returned tt ->
  exists (s : string) (w' : world),
    generate_sales_insights key ai transcript_text w = (Returned s, w').
Proof.
  intros H. unfold generate_sales_insights.
  destruct (negb (PyStr.truthy key)) eqn:Hk.
  - now eexists; eexists.
  - destruct H as [-> | H]; [ discriminate | ].
    unfold bind at 1. unfold client at 1. rewrite H.
    apply try_except_all_returns. apply generator_handler_returns.
Qed.

(** X8: a fetch that fails in one of the handled ways (the HTTP client
    raises, error status, body not JSON, errors key) makes a click on the
    insights button show two notifications, the error of the fetch and then
    the empty-transcript warning, and end normally; the generative-AI client
    is not called, with or without a key. *)
Theorem failed_fetch_shows_warning :
  forall (fireflies_key endpoint google_key : string) (net : backend)
         (ai : genai) (transcript_id : pyval) (w : world) (c : st_call),
    failure (net (http_calls w)
               (transcript_request fireflies_key endpoint transcript_id)) c ->
    generate_insights_clicked fireflies_key endpoint google_key net ai
      transcript_id w
    = (Returned tt,
       shown (st_warning "Transcrição vazia ou não encontrada.")
         (shown c
            (requested (transcript_request fireflies_key endpoint transcript_id)
               w))).
Proof.
  intros fk ep gk net ai tid w c Hf. unfold generate_insights_clicked, bind.
  now rewrite (fetcher_failure fk ep net tid w c Hf).
Qed.

Lemma failed_fetch_shows_warning_witness :
  generate_insights_clicked "secret" Example.endpoint "google"
    (Example.answering (PostRaises "Connection refused"))
    (Example.model_gives (Returned Example.fallback_response))
    (PStr "t1") Example.fresh
  = (Returned tt,
     shown (st_warning "Transcrição vazia ou não encontrada.")
       (shown (request_failed "Connection refused")
          (requested (transcript_request "secret" Example.endpoint (PStr "t1"))
             Example.fresh))).
Proof.
  apply (failed_fetch_shows_warning "secret" Example.endpoint "google"
           (Example.answering (PostRaises "Connection refused"))
           (Example.model_gives (Returned Example.fallback_response))
           (PStr "t1") Example.fresh).
  apply failure_transport.
Defined.

(** X9: when the fetch returns a text that is not blank, and genai.configure
    returns or the Google key is empty, a click on the insights button shows
    the success notice and then, as markdown, whatever string the generator
    returned; it does so also when that string reports a failure.  With the
    empty Google key the page shows the success notice followed by the
    not-configured message. *)
Theorem insights_shown_after_success_notice :
  forall (fireflies_key endpoint google_key : string) (net : backend)
         (ai : genai) (transcript_id : pyval) (w w1 : world) (fetched : string),
    get_transcript_text_by_id fireflies_key endpoint net transcript_id w
    = (Returned fetched, w1) ->
    PyStr.strip fetched <> "" ->
    google_key = "" \/ configure ai google_key = Returned tt ->
    exists (s : string) (w2 : world),
      generate_sales_insights google_key ai fetched w1 = (Returned s, w2)
      /\ generate_insights_clicked fireflies_key endpoint google_key net ai
           transcript_id w
         = (Returned tt,
            shown (st_markdown s) (shown (st_success "Insights Gerados!") w2))
      /\ (google_key = "" ->
          s = "Chave de API do Google não configurada." /\ w2 = w1).
Proof.
  intros fk ep gk net ai tid w w1 fetched Hf Hb Hg.
  destruct (generator_returns gk ai fetched w1 Hg) as (s & w2 & Hs).
  exists s, w2. repeat apply conj.
  - exact Hs.
  - unfold generate_insights_clicked. unfold bind at 1. rewrite Hf.
    rewrite (truthy_nonempty _ Hb). cbn [negb].
    unfold bind at 1. now rewrite Hs.
  - intros ->. cbn in Hs. now inversion Hs.
Qed.

Lemma insights_shown_after_success_notice_witness :
  exists (s : string) (w2 : world),
    generate_sales_insights "" (Example.model_gives (Returned Example.fallback_response))
      ("Hello" ++ PyStr.nl ++ "world")
      (requested (transcript_request "secret" Example.endpoint (PStr "t1"))
         Example.fresh)
    = (Returned s, w2)
    /\ generate_insights_clicked "secret" Example.endpoint ""
         (Example.answering (PostReturns (Example.ok Example.hello_world)))
         (Example.model_gives (Returned Example.fallback_response))
         (PStr "t1") Example.fresh
       = (Returned tt,
          shown (st_markdown s) (shown (st_success "Insights Gerados!") w2))
    /\ ("" = "" ->
        s = "Chave de API do Google não configurada."
        /\ w2 = requested (transcript_request "secret" Example.endpoint (PStr "t1"))
                  Example.fresh).
Proof.
  apply (insights_shown_after_success_notice "secret" Example.endpoint ""
           (Example.answering (PostReturns (Example.ok Example.hello_world)))
           (Example.model_gives (Returned Example.fallback_response))
           (PStr "t1") Example.fresh).
  - reflexivity.
  - discriminate.
  - left. reflexivity.
Defined.

(** ** Bodies the two operations do not expect *)

(** X10: a body that is valid JSON but not an object (null, a number, a
    string, an array) is not handled: both operations raise TypeError or
    AttributeError to the caller after their one request, and show nothing. *)
Theorem non_object_body_raises :
  forall (key url : string) (net : backend) (w : world) (resp : http_response)
         (v : pyval),
    key <> "" -> url <> "" ->
    error_status resp = false ->
    body resp = Json v ->
    (forall items, v <> PDict items) ->
    (net (http_calls w) (transcripts_request key url) = PostReturns resp ->
     exists e,
       get_fireflies_transcripts key url net w
       = (Raised e, requested (transcripts_request key url) w)
       /\ (exn_class_of e = TypeError \/ exn_class_of e = AttributeError))
    /\ (forall transcript_id,
          net (http_calls w) (transcript_request key url transcript_id)
          = PostReturns resp ->
          exists e,
            get_transcript_text_by_id key url net transcript_id w
            = (Raised e, requested (transcript_request key url transcript_id) w)
            /\ (exn_class_of e = TypeError \/ exn_class_of e = AttributeError)).
Proof.
  intros key url net w resp v Hk Hu Hs Hb Hv. split.
  - intros Hnet. unfold get_fireflies_transcripts.
    rewrite (truthy_nonempty _ Hk), (truthy_nonempty _ Hu). cbn [negb orb].
    answered Hnet. unfold lift, json.
    rewrite (raise_for_status_fine _ Hs), Hb.
    destruct v as [ | b | n | x | s | l | items ]; cbn;
      try (eexists; split; [ reflexivity | cbn; auto ]).
    + destruct (PyStr.contains "errors" s); cbn;
        eexists; (split; [ reflexivity | cbn; auto ]).
    + destruct (existsb (Py.eq_str "errors") l); cbn;
        eexists; (split; [ reflexivity | cbn; auto ]).
    + now elim (Hv items).
  - intros tid Hnet. unfold get_transcript_text_by_id.
    answered Hnet. unfold lift, json.
    rewrite (raise_for_status_fine _ Hs), Hb.
    destruct v as [ | b | n | x | s | l | items ]; cbn;
      try (eexists; split; [ reflexivity | cbn; auto ]).
    + destruct (PyStr.contains "errors" s); cbn;
        eexists; (split; [ reflexivity | cbn; auto ]).
    + destruct (existsb (Py.eq_str "errors") l); cbn;
        eexists; (split; [ reflexivity | cbn; auto ]).
    + now elim (Hv items).
Qed.

Lemma non_object_body_raises_witness :
  exists e,
    get_fireflies_transcripts "secret" Example.endpoint
      (Example.answering (PostReturns (Example.ok (PList [])))) Example.fresh
    = (Raised e, requested (transcripts_request "secret" Example.endpoint)
                   Example.fresh)
    /\ (exn_class_of e = TypeError \/ exn_class_of e = AttributeError).
Proof.
  refine (proj1 (non_object_body_raises "secret" Example.endpoint
                   (Example.answering (PostReturns (Example.ok (PList []))))
                   Example.fresh (Example.ok (PList [])) (PList [])
                   _ _ eq_refl eq_refl _) eq_refl); discriminate.
Defined.

(** The comprehension stops at the first sentence without a text field. *)
Lemma comprehension_stops (good rest : list pyval) (texts : list string)
    (items : list (string * pyval)) :
  Forall2 sentence_with_text good texts ->
  Py.lookup "text" items = None ->
  comprehension (fun s => Py.getitem s "text") (good ++ PDict items :: rest)
  = Raised (Exn KeyError "'text'").
Proof.
  intros H Ht. induction H as [ | s t ss ts (its & -> & Hs) _ IH ]; cbn.
  - now rewrite Ht.
  - rewrite Hs. cbn. now rewrite IH.
Qed.

Lemma comprehension_fields (sentences values : list pyval) :
  Forall2 sentence_with_field sentences values ->
  comprehension (fun s => Py.getitem s "text") sentences = Returned values.
Proof.
  induction 1 as [ | s x ss xs (its & -> & Hs) _ IH ]; cbn.
  - reflexivity.
  - rewrite Hs. cbn. now rewrite IH.
Qed.

(** Joining fails on the first value that is not a string. *)
Lemma strings_not_str (texts : list string) (x : pyval) (rest : list pyval) :
  (forall s, x <> PStr s) ->
  exists e, Py.strings (map PStr texts ++ x :: rest) = Raised e
            /\ exn_class_of e = TypeError.
Proof.
  intros Hx. induction texts as [ | t ts (e & He & Hc) ]; cbn.
  - destruct x; try (eexists; split; reflexivity). now elim (Hx s).
  - rewrite He. now exists e.
Qed.

(** X11: sentences the Fetcher does not expect, in a response that is
    otherwise as it should be.  (1) If the sentences before it carry a string
    text and one sentence object has no text field, get_transcript_text_by_id
    raises KeyError for text.  (2) If every sentence has a text field and,
    after some that hold strings, one holds a value that is not a string
    (null, say), it raises TypeError.  In both cases nothing is shown and no
    partial text is returned. *)
Theorem bad_sentence_raises :
  forall (key url : string) (net : backend) (transcript_id : pyval) (w : world)
         (resp : http_response) (top data transcript : list (string * pyval))
         (sentences : list pyval),
    net (http_calls w) (transcript_request key url transcript_id) = PostReturns resp ->
    error_status resp = false ->
    body resp = Json (PDict top) ->
    Py.lookup "errors" top = None ->
    Py.lookup "data" top = Some (PDict data) ->
    Py.lookup "transcript" data = Some (PDict transcript) ->
    Py.lookup "sentences" transcript = Some (PList sentences) ->
    let run := get_transcript_text_by_id key url net transcript_id w in
    (forall good texts items rest,
        sentences = (good ++ PDict items :: rest)%list ->
        Forall2 sentence_with_text good texts ->
        Py.lookup "text" items = None ->
        run = (Raised (Exn KeyError "'text'"),
               requested (transcript_request key url transcript_id) w))
    /\ (forall texts x rest,
          Forall2 sentence_with_field sentences
            (map PStr texts ++ x :: rest)%list ->
          (forall s, x <> PStr s) ->
          exists e,
            run = (Raised e, requested (transcript_request key url transcript_id) w)
            /\ exn_class_of e = TypeError).
Proof.
  intros key url net tid w resp top data transcript sentences
         Hnet Hs Hb He Hd Ht Hss run.
  assert (E : run
              = match and_then
                        (comprehension (fun s => Py.getitem s "text") sentences)
                        (Py.join PyStr.nl) with
                | Returned t => (Returned t, requested (transcript_request key url tid) w)
                | Raised e =>
                    if is_RequestException e
                    then (Returned "",
                          shown (request_failed (exn_str e))
                            (requested (transcript_request key url tid) w))
                    else (Raised e, requested (transcript_request key url tid) w)
                end).
  { subst run. unfold get_transcript_text_by_id.
    answered Hnet. unfold lift, json.
    rewrite (raise_for_status_fine _ Hs), Hb. cbn. rewrite He, Hd. cbn.
    rewrite Ht. cbn. rewrite Hss. cbn -[comprehension Py.join].
    destruct (comprehension _ sentences) as [values | e];
      cbn -[Py.join]; [ | reflexivity ].
    destruct (Py.join PyStr.nl values); reflexivity. }
  rewrite E. split.
  - intros good texts items rest -> Hg Hi.
    now rewrite (comprehension_stops _ _ _ _ Hg Hi).
  - intros texts x rest Hf Hx.
    rewrite (comprehension_fields _ _ Hf). cbn [and_then]. unfold Py.join.
    destruct (strings_not_str texts x rest Hx) as (e & -> & Hc).
    exists e. unfold is_RequestException. rewrite Hc. now split.
Qed.

Lemma bad_sentence_raises_witness :
  exists e,
    get_transcript_text_by_id "secret" Example.endpoint
      (Example.answering (PostReturns (Example.ok Example.null_text)))
      (PStr "t1") Example.fresh
    = (Raised e,
       requested (transcript_request "secret" Example.endpoint (PStr "t1"))
         Example.fresh)
    /\ exn_class_of e = TypeError.
Proof.
  refine (proj2 (bad_sentence_raises "secret" Example.endpoint
                   (Example.answering (PostReturns (Example.ok Example.null_text)))
                   (PStr "t1") Example.fresh (Example.ok Example.null_text)
                   _ _ _ _ eq_refl eq_refl eq_refl eq_refl eq_refl eq_refl eq_refl)
            ["Hello"] PNone [] _ _).
  - repeat constructor; eexists; split; reflexivity.
  - discriminate.
Defined.

(** X12: fields that are absent read as nothing listed.  In a response that
    gets through with an object without errors as body,
    get_fireflies_transcripts returns the empty list when data or
    data.transcripts is absent, and get_transcript_text_by_id returns the
    empty string when data, data.transcript or data.transcript.sentences is
    absent; neither shows anything. *)
Theorem absent_fields_read_as_empty :
  forall (key url : string) (net : backend) (w : world) (resp : http_response)
         (top : list (string * pyval)),
    key <> "" -> url <> "" ->
    error_status resp = false ->
    body resp = Json (PDict top) ->
    Py.lookup "errors" top = None ->
    (net (http_calls w) (transcripts_request key url) = PostReturns resp ->
     Py.lookup "data" top = None
     \/ (exists data, Py.lookup "data" top = Some (PDict data)
                      /\ Py.lookup "transcripts" data = None) ->
     get_fireflies_transcripts key url net w
     = (Returned (PList []), requested (transcripts_request key url) w))
    /\ (forall transcript_id,
          net (http_calls w) (transcript_request key url transcript_id)
          = PostReturns resp ->
          Py.lookup "data" top = None
          \/ (exists data,
                Py.lookup "data" top = Some (PDict data)
                /\ (Py.lookup "transcript" data = None
                    \/ exists transcript,
                         Py.lookup "transcript" data = Some (PDict transcript)
                         /\ Py.lookup "sentences" transcript = None)) ->
          get_transcript_text_by_id key url net transcript_id w
          = (Returned "", requested (transcript_request key url transcript_id) w)).
Proof.
  intros key url net w resp top Hk Hu Hs Hb He. split.
  - intros Hnet [Hd | (data & Hd & Ht)].
    + apply lister_listed with (resp := resp) (top := top) (data := []);
        trivial; now right.
    + apply lister_listed with (resp := resp) (top := top) (data := data);
        trivial; [ now left | now right ].
  - intros tid Hnet H.
    change (Returned "") with (@Returned string (String.concat PyStr.nl [])).
    destruct H as [Hd | (data & Hd & [Ht | (transcript & Ht & Hss)])].
    + apply fetcher_joined
        with (resp := resp) (top := top) (data := []) (transcript := [])
             (sentences := []); trivial; now right.
    + apply fetcher_joined
        with (resp := resp) (top := top) (data := data) (transcript := [])
             (sentences := []); trivial; [ now left | now right | now right ].
    + apply fetcher_joined
        with (resp := resp) (top := top) (data := data) (transcript := transcript)
             (sentences := []); trivial; [ now left | now left | now right ].
Qed.

Lemma absent_fields_read_as_empty_witness :
  get_transcript_text_by_id "secret" Example.endpoint
    (Example.answering (PostReturns (Example.ok (PDict [("data", PDict [])]))))
    (PStr "t1") Example.fresh
  = (Returned "",
     requested (transcript_request "secret" Example.endpoint (PStr "t1"))
       Example.fresh).
Proof.
  refine (proj2 (absent_fields_read_as_empty "secret" Example.endpoint
                   (Example.answering
                      (PostReturns (Example.ok (PDict [("data", PDict [])]))))
                   Example.fresh (Example.ok (PDict [("data", PDict [])]))
                   [("data", PDict [])] _ _ eq_refl eq_refl eq_refl)
            (PStr "t1") eq_refl _); try discriminate.
  right. exists []. split; [ reflexivity | now left ].
Defined.

(** ** The prompt *)

Lemma length_append (s t : string) :
  String.length (s ++ t) = String.length s + String.length t.
Proof. induction s as [ | c s IH ]; cbn; [ reflexivity | now rewrite IH ]. Qed.

Lemma append_cancel_r (s1 s2 t : string) : s1 ++ t = s2 ++ t -> s1 = s2.
Proof.
  revert s2. induction s1 as [ | c1 s1 IH ]; intros [ | c2 s2 ] H; cbn in H.
  - reflexivity.
  - apply (f_equal String.length) in H. cbn in H. rewrite length_append in H. lia.
  - apply (f_equal String.length) in H. cbn in H. rewrite length_append in H. lia.
  - injection H as -> H. now rewrite (IH s2 H).
Qed.

Lemma append_cancel_l (s t1 t2 : string) : s ++ t1 = s ++ t2 -> t1 = t2.
Proof.
  induction s as [ | c s IH ]; cbn; intros H; [ exact H | ].
  injection H as H. now apply IH.
Qed.

(** X13: the prompt is the fixed head, the transcript text as it is (whole,
    nothing escaped, cut or trimmed) and the fixed tail; so its length is that
    of the text plus a constant, and two texts with the same prompt are the
    same text. *)
Theorem prompt_embeds_text :
  forall transcript_text : string,
    prompt_of transcript_text = prompt_head ++ transcript_text ++ prompt_tail
    /\ String.length (prompt_of transcript_text)
       = String.length prompt_head + String.length transcript_text
         + String.length prompt_tail
    /\ (forall other, prompt_of transcript_text = prompt_of other ->
                      transcript_text = other).
Proof.
  intros text.
  assert (E : forall t, prompt_of t = prompt_head ++ t ++ prompt_tail)
    by (intros t; reflexivity).
  repeat apply conj.
  - apply E.
  - rewrite E, !length_append. lia.
  - intros other H. rewrite !E in H.
    apply append_cancel_l in H. now apply append_cancel_r in H.
Qed.

Lemma prompt_embeds_text_witness :
  prompt_of "Hello" = prompt_head ++ "Hello" ++ prompt_tail /\ "Hello" = "Hello".
Proof.
  destruct (prompt_embeds_text "Hello") as (H1 & _ & H3).
  split; [ exact H1 | exact (H3 "Hello" eq_refl) ].
Defined.

(** ** The page *)

Lemma bind_returned {A B : Type} (m : M A) (k : A -> M B) (w w' : world) (a : A) :
  m w = (Returned a, w') -> bind m k w = k a w'.
Proof. intros H. unfold bind. now rewrite H. Qed.

Lemma bind_raised {A B : Type} (m : M A) (k : A -> M B) (w w' : world) (e : exn) :
  m w = (Raised e, w') -> bind m k w = (Raised e, w').
Proof. intros H. unfold bind. now rewrite H. Qed.

(** [main] is its header, the load, the session key and the listing. *)
Lemma main_parts (fk ep gk : string) (net : backend) (ai : genai)
    (clicked : button -> bool) :
  main fk ep gk net ai clicked
  = (show (st_set_page_config "Neural Sales - Monolítico" "wide") ;;
     show (st_title "Neural Sales - Web App (Monolítico)") ;;
     show (st_write (Plain (PyStr.lines
       [""; "    **Versão Inicial**  ";
        "    Esta aplicação lista transcrições do Fireflies e permite gerar insights via modelo Gemini do Google.";
        "    "]))) ;;
     load <- button_clicked clicked LoadButton ;;
     (if load
      then
        listed <- get_fireflies_transcripts fk ep net ;;
        session_set "transcripts" listed
      else ret tt) ;;
     present <- session_has "transcripts" ;;
     (if present then ret tt else session_set "transcripts" (PList [])) ;;
     transcripts <- session_get "transcripts" ;;
     listing fk ep gk net ai clicked transcripts).
Proof. reflexivity. Qed.

Lemma lookup_assign_same (k : string) (v : pyval) (items : list (string * pyval)) :
  Py.lookup k (assign k v items) = Some v.
Proof.
  induction items as [ | [k' v'] rest IH ]; cbn.
  - now rewrite String.eqb_refl.
  - destruct (String.eqb k k') eqn:E; cbn.
    + now rewrite String.eqb_refl.
    + now rewrite E.
Qed.

Lemma shown_all_app (cs ds : list st_call) (w : world) :
  shown_all (cs ++ ds) w = shown_all ds (shown_all cs w).
Proof. unfold shown_all. apply fold_left_app. Qed.

Lemma shown_all_http_calls (cs : list st_call) (w : world) :
  http_calls (shown_all cs w) = http_calls w.
Proof.
  revert w. induction cs as [ | c cs IH ]; intros w; cbn; [ reflexivity | ].
  change (http_calls (shown_all cs (shown c w)) = http_calls w).
  now rewrite IH.
Qed.

Lemma shown_all_session_state (cs : list st_call) (w : world) :
  session_state (shown_all cs w) = session_state w.
Proof.
  revert w. induction cs as [ | c cs IH ]; intros w; cbn; [ reflexivity | ].
  change (session_state (shown_all cs (shown c w)) = session_state w).
  now rewrite IH.
Qed.

Lemma shown_all_world (cs : list st_call) (w : world) :
  shown_all cs w
  = World (session_state w) (rev cs ++ page w)%list (http_calls w) (genai_calls w).
Proof.
  revert w. induction cs as [ | c cs IH ]; intros w.
  - now destruct w.
  - change (shown_all (c :: cs) w) with (shown_all cs (shown c w)).
    rewrite IH. cbn. now rewrite <- app_assoc.
Qed.

Lemma main_listed (fk ep gk : string) (net : backend) (ai : genai)
    (clicked : button -> bool) (w : world) (listed : pyval) :
  clicked LoadButton = false ->
  Py.lookup "transcripts" (session_state w) = Some listed ->
  main fk ep gk net ai clicked w
  = listing fk ep gk net ai clicked listed (shown_all header w).
Proof.
  intros Hc Hl. rewrite main_parts.
  unfold bind, show, button_clicked, ret, session_has, session_get.
  cbn -[Py.lookup listing]. rewrite Hc. cbn -[Py.lookup listing].
  rewrite Hl. cbn -[Py.lookup listing]. rewrite Hl. reflexivity.
Qed.

(** X14: a run of main without a click on the load button, from a session
    with no transcript list or with one that counts as false (the empty list),
    shows the header and the nothing-listed notice and returns: no transcript
    row and no insights button is shown, no request is made and the
    generative-AI client is not called.  A session without the key gets it,
    holding the empty list; a session with the key is left as it was. *)
Theorem main_nothing_listed :
  forall (fireflies_key endpoint google_key : string) (net : backend)
         (ai : genai) (clicked : button -> bool) (w : world),
    clicked LoadButton = false ->
    let notice :=
      st_info "Nenhuma transcrição listada ou botão 'Carregar Lista de Transcrições' não foi clicado." in
    (Py.lookup "transcripts" (session_state w) = None ->
     main fireflies_key endpoint google_key net ai clicked w
     = (Returned tt,
        World (assign "transcripts" (PList []) (session_state w))
          (notice :: rev header ++ page w)%list (http_calls w) (genai_calls w)))
    /\ (forall listed,
          Py.lookup "transcripts" (session_state w) = Some listed ->
          Py.truthy listed = false ->
          main fireflies_key endpoint google_key net ai clicked w
          = (Returned tt,
             World (session_state w) (notice :: rev header ++ page w)%list
               (http_calls w) (genai_calls w))).
Proof.
  intros fk ep gk net ai clicked w Hc notice. split.
  - intros Hl. rewrite main_parts.
    unfold bind, show, button_clicked, ret, session_has, session_set,
      session_get, shown.
    cbn -[assign Py.lookup listing]. rewrite Hc. cbn -[assign Py.lookup listing].
    rewrite Hl. cbn -[assign Py.lookup listing]. rewrite lookup_assign_same.
    reflexivity.
  - intros listed Hl Ht. rewrite (main_listed _ _ _ _ _ _ _ _ Hc Hl).
    unfold listing. rewrite Ht. reflexivity.
Qed.

Lemma main_nothing_listed_witness :
  main "secret" Example.endpoint "google"
    (Example.answering (PostRaises "unreachable"))
    (Example.model_gives (Returned Example.fallback_response))
    Example.idle Example.fresh
  = (Returned tt,
     World [("transcripts", PList [])]
       (st_info "Nenhuma transcrição listada ou botão 'Carregar Lista de Transcrições' não foi clicado."
          :: rev header)
       [] []).
Proof.
  refine (proj1 (main_nothing_listed "secret" Example.endpoint "google"
                   (Example.answering (PostRaises "unreachable"))
                   (Example.model_gives (Returned Example.fallback_response))
                   Example.idle Example.fresh eq_refl) eq_refl).
Defined.

Lemma keeps_session_row_body (fk ep gk : string) (net : backend) (ai : genai)
    (clicked : button -> bool) (t : pyval) :
  keeps_session (row_body fk ep gk net ai clicked t).
Proof.
  unfold row_body.
  apply keeps_session_bind; [ auto with frame | intros transcript_id ].
  apply keeps_session_bind; [ auto with frame | intros title ].
  apply keeps_session_bind; [ auto with frame | intros _ ].
  apply keeps_session_bind; [ auto with frame | intros _ ].
  apply keeps_session_bind; [ auto with frame | intros _ ].
  apply keeps_session_bind; [ apply keeps_session_button_clicked | intros go ].
  apply keeps_session_bind; [ | intros _; auto with frame ].
  apply keeps_session_if;
    [ apply keeps_session_generate_insights_clicked | auto with frame ].
Qed.

Lemma keeps_session_listing (fk ep gk : string) (net : backend) (ai : genai)
    (clicked : button -> bool) (transcripts : pyval) :
  keeps_session (listing fk ep gk net ai clicked transcripts).
Proof.
  unfold listing.
  apply keeps_session_if; [ auto with frame | ].
  apply keeps_session_bind; [ auto with frame | intros _ ].
  apply keeps_session_bind; [ auto with frame | intros each ].
  apply keeps_session_for_each. intros t. apply keeps_session_row_body.
Qed.

Lemma keeps_session_get_fireflies_transcripts (key url : string) (net : backend) :
  keeps_session (get_fireflies_transcripts key url net).
Proof. unfold get_fireflies_transcripts. frame. Qed.

Lemma main_loaded (fk ep gk : string) (net : backend) (ai : genai)
    (clicked : button -> bool) (w : world) :
  clicked LoadButton = true ->
  main fk ep gk net ai clicked w
  = (listed <- get_fireflies_transcripts fk ep net ;;
     session_set "transcripts" listed ;;
     present <- session_has "transcripts" ;;
     (if present then ret tt else session_set "transcripts" (PList [])) ;;
     transcripts <- session_get "transcripts" ;;
     listing fk ep gk net ai clicked transcripts) (shown_all header w).
Proof.
  intros Hc. rewrite main_parts.
  unfold bind, show, button_clicked, ret.
  cbn -[get_fireflies_transcripts session_set session_has session_get listing].
  rewrite Hc.
  destruct (get_fireflies_transcripts fk ep net _) as [[listed | e] w5];
    reflexivity.
Qed.



Lemma row_body_renders (fk ep gk : string) (net : backend) (ai : genai)
    (clicked : button -> bool) (t : pyval) (r : list st_call) (w : world) :
  (forall i, clicked (InsightsButton i) = false) ->
  renders t r ->
  row_body fk ep gk net ai clicked t w = (Returned tt, shown_all r w).
Proof.
  intros Hc (items & tid & title & -> & Hid & Ht & ->).
  unfold row_body, bind, lift. cbn -[Py.get]. rewrite Hid.
  rewrite (get_field_or _ _ _ _ Ht). cbn. now rewrite Hc.
Qed.

Lemma for_each_rows (fk ep gk : string) (net : backend) (ai : genai)
    (clicked : button -> bool) (l : list pyval) (rows : list (list st_call)) :
  (forall i, clicked (InsightsButton i) = false) ->
  Forall2 renders l rows ->
  forall w,
    for_each l (row_body fk ep gk net ai clicked) w
    = (Returned tt, shown_all (concat rows) w).
Proof.
  intros Hc H. induction H as [ | t r l rows Hr _ IH ]; intros w.
  - reflexivity.
  - cbn [for_each concat]. unfold bind at 1.
    rewrite (row_body_renders _ _ _ _ _ _ _ _ _ Hc Hr).
    rewrite IH. now rewrite shown_all_app.
Qed.

Lemma for_each_stops (fk ep gk : string) (net : backend) (ai : genai)
    (clicked : button -> bool) (good : list pyval) (rows : list (list st_call))
    (items : list (string * pyval)) (rest : list pyval) :
  (forall i, clicked (InsightsButton i) = false) ->
  Forall2 renders good rows ->
  Py.lookup "id" items = None ->
  forall w,
    for_each (good ++ PDict items :: rest) (row_body fk ep gk net ai clicked) w
    = (Raised (Exn KeyError "'id'"), shown_all (concat rows) w).
Proof.
  intros Hc H Hid. induction H as [ | t r l rows Hr _ IH ]; intros w.
  - cbn [app for_each concat]. unfold bind at 1, row_body, bind, lift.
    cbn. now rewrite Hid.
  - cbn [app for_each concat]. unfold bind at 1.
    rewrite (row_body_renders _ _ _ _ _ _ _ _ _ Hc Hr).
    rewrite IH. now rewrite shown_all_app.
Qed.




